(** * brigade-api: the REST front end of Brigade

    A shallow embedding of [brigade-api/cmd/brigade-api/main.go]: the
    bootstrap defaults and flags, the four web services and their route
    tables, the container wiring of [main] and the access-log filter
    [nCSACommonLogFormatLogger].  The packages [main.go] imports
    ([go-restful], [net/http], [flag], [time], [fmt] and Brigade's own
    [pkg/api]) are modelled only as far as [main.go] uses them. *)

From Stdlib Require Import ZArith String Ascii List Bool Lia.
From Stdlib Require Import OrdersEx DecimalString.
From stdpp Require Import gmap strings.

Import ListNotations.
Local Open Scope string_scope.
Local Open Scope Z_scope.

(** String concatenation computes under [simpl], as in the Standard
    Library. *)
#[global] Arguments String.append !s1 s2 : simpl nomatch.

(** Method chaining, [x |> f |> g] for Go's [x.f().g()]. *)
Notation "x |> f" := (f x) (at level 68, left associativity, only parsing).

(* ===================================================================== *)
(** * Go's [strings], [strconv] and [fmt], as far as the program calls them *)
(* ===================================================================== *)

Module GoStrings.

(** The double-quote character, backslash-escaped in the Go source. *)
Definition dquote : string := String "034"%char EmptyString.

(** [strings.Split(s, sep)] for a one-byte separator, the only kind the
    program passes: the pieces between the separators, in order.
    [cur] accumulates the current piece; there is always at least one
    piece, so indexing the result at [0] cannot fail. *)
Fixpoint Split_from (cur s : string) (sep : ascii) : list string :=
  match s with
  | EmptyString => [cur]
  | String c rest =>
      if Ascii.eqb c sep
      then cur :: Split_from EmptyString rest sep
      else Split_from (cur ++ String c EmptyString) rest sep
  end.

Definition Split (s : string) (sep : ascii) : list string :=
  Split_from EmptyString s sep.

(** [xs[0]] on a slice of strings; Go panics on an empty slice, which
    is [None] here. *)
Definition index0 (xs : list string) : option string := head xs.

(** [strings.TrimLeft(s, cutset)] and [strings.TrimRight(s, cutset)]
    for a one-byte cutset. *)
Fixpoint TrimLeft (s : string) (c : ascii) : string :=
  match s with
  | String a rest => if Ascii.eqb a c then TrimLeft rest c else s
  | EmptyString => EmptyString
  end.

Fixpoint TrimRight (s : string) (c : ascii) : string :=
  match s with
  | EmptyString => EmptyString
  | String a rest =>
      match TrimRight rest c with
      | EmptyString => if Ascii.eqb a c then EmptyString else String a EmptyString
      | t => String a t
      end
  end.

Definition Trim (s : string) (c : ascii) : string :=
  TrimRight (TrimLeft s c) c.

(** [strconv.Itoa] on an [int]. *)
Definition Itoa (z : Z) : string := NilZero.string_of_int (Z.to_int z).

(** Zero-padded decimal of width [w], as [time] prints its fields. *)
Fixpoint zeros (n : nat) : string :=
  match n with
  | O => EmptyString
  | S n' => String "0" (zeros n')
  end.

Definition pad0 (w : nat) (s : string) : string :=
  zeros (w - String.length s) ++ s.

Definition Itoa_width (w : nat) (z : Z) : string :=
  if z <? 0 then "-" ++ pad0 w (Itoa (- z)) else pad0 w (Itoa z).

(** The operands of a [Printf]. *)
Inductive Arg : Type :=
| AStr (s : string)
| AInt (z : Z).

Definition arg_type (a : Arg) : string :=
  match a with AStr _ => "string" | AInt _ => "int" end.

Definition arg_value (a : Arg) : string :=
  match a with AStr s => s | AInt z => Itoa z end.

(** One verb applied to one operand: [%s] prints a string, [%d] an int,
    [%v] either; any other pairing prints Go's [%!verb(type=value)]
    diagnostic. *)
Definition format_verb (verb : ascii) (a : Arg) : string :=
  match a with
  | AStr s => if Ascii.eqb verb "s" || Ascii.eqb verb "v" then s
              else "%!" ++ String verb ("(string=" ++ s ++ ")")
  | AInt z => if Ascii.eqb verb "d" || Ascii.eqb verb "v" then Itoa z
              else "%!" ++ String verb ("(int=" ++ Itoa z ++ ")")
  end.

Fixpoint extra_args (args : list Arg) : string :=
  match args with
  | [] => ""
  | [a] => arg_type a ++ "=" ++ arg_value a
  | a :: rest => arg_type a ++ "=" ++ arg_value a ++ ", " ++ extra_args rest
  end.

(** [fmt.Sprintf(format, args...)] for formats built from plain text,
    [%%] and one-letter verbs without flags or width.  A verb with no
    operand left prints [%!verb(MISSING)], operands left over print
    [%!(EXTRA ...)], a lone [%] at the end prints [%!(NOVERB)]. *)
Fixpoint Sprintf (format : string) (args : list Arg) : string :=
  match format with
  | EmptyString =>
      match args with
      | [] => ""
      | _ => "%!(EXTRA " ++ extra_args args ++ ")"
      end
  | String c rest =>
      if Ascii.eqb c "%" then
        match rest with
        | EmptyString => "%!(NOVERB)"
        | String v rest' =>
            if Ascii.eqb v "%" then String "%" (Sprintf rest' args)
            else match args with
                 | [] => "%!" ++ String v ("(MISSING)" ++ Sprintf rest' [])
                 | a :: args' => format_verb v a ++ Sprintf rest' args'
                 end
        end
      else String c (Sprintf rest args)
  end.

End GoStrings.

(* ===================================================================== *)
(** * Go's [time], as far as the access log formats it *)
(* ===================================================================== *)

Module time.
Import GoStrings.

Inductive Month : Type :=
| January | February | March | April | May | June
| July | August | September | October | November | December.

(** A wall-clock reading: the calendar fields of a [time.Time] and the
    offset of its zone, in seconds east of UTC. *)
Record Time : Type := mkTime {
  Year : Z;
  MonthOf : Month;
  Day : Z;
  Hour : Z;
  Minute : Z;
  Second : Z;
  ZoneOffset : Z
}.

Definition shortMonthName (m : Month) : string :=
  match m with
  | January => "Jan" | February => "Feb" | March => "Mar"
  | April => "Apr" | May => "May" | June => "Jun"
  | July => "Jul" | August => "Aug" | September => "Sep"
  | October => "Oct" | November => "Nov" | December => "Dec"
  end.

(** The chunk [-0700]: sign, hours and minutes of the zone offset. *)
Definition numTZ (t : Time) : string :=
  let zone := Z.quot (ZoneOffset t) 60 in
  let sign := if zone <? 0 then "-" else "+" in
  let zone := Z.abs zone in
  sign ++ Itoa_width 2 (Z.quot zone 60) ++ Itoa_width 2 (Z.rem zone 60).

(** [t.Format(layout)] for layouts made of the reference chunks
    [2006], [Jan], [02], [15], [04], [05], [-0700] and literal text;
    [skip] counts the bytes of a chunk still to step over. *)
Fixpoint Format_from (t : Time) (skip : nat) (layout : string) : string :=
  match layout with
  | EmptyString => EmptyString
  | String c rest =>
      match skip with
      | S k => Format_from t k rest
      | O =>
          if String.prefix "2006" layout
          then Itoa_width 4 (Year t) ++ Format_from t 3 rest
          else if String.prefix "Jan" layout
          then shortMonthName (MonthOf t) ++ Format_from t 2 rest
          else if String.prefix "02" layout
          then Itoa_width 2 (Day t) ++ Format_from t 1 rest
          else if String.prefix "15" layout
          then Itoa_width 2 (Hour t) ++ Format_from t 1 rest
          else if String.prefix "04" layout
          then Itoa_width 2 (Minute t) ++ Format_from t 1 rest
          else if String.prefix "05" layout
          then Itoa_width 2 (Second t) ++ Format_from t 1 rest
          else if String.prefix "-0700" layout
          then numTZ t ++ Format_from t 4 rest
          else String c (Format_from t 0 rest)
      end
  end.

Definition Format (t : Time) (layout : string) : string :=
  Format_from t 0 layout.

End time.

(* ===================================================================== *)
(** * [net/http] and [net/url]: the request as the program reads it *)
(* ===================================================================== *)

Module http.

Definition StatusOK : Z := 200.
Definition StatusNotFound : Z := 404.
Definition StatusMethodNotAllowed : Z := 405.

(** [http.Header]: canonical header name to its values. *)
Definition Header : Type := gmap string (list string).

(** [h.Get(key)]: the first value under [key], or the empty string. *)
Definition Header_Get (h : Header) (key : string) : string :=
  match h !! key with
  | Some (v :: _) => v
  | _ => ""
  end.

(** [h.Add(key, value)]. *)
Definition Header_Add (h : Header) (key value : string) : Header :=
  <[key := (default [] (h !! key) ++ [value])%list]> h.

(** [url.Userinfo] with its [Username()] method. *)
Record Userinfo : Type := mkUserinfo {
  Username : string;
  password : string;
  passwordSet : bool
}.

(** [url.URL]: [User] is a pointer, [None] when nil; [RequestURI] holds
    what the method [RequestURI()] returns. *)
Record URL : Type := mkURL {
  Path : string;
  User : option Userinfo;
  RequestURI : string
}.

Record Request : Type := mkRequest {
  Method : string;
  URLOf : URL;
  Proto : string;
  HeaderOf : Header;
  RemoteAddr : string
}.

End http.

(* ===================================================================== *)
(** * [go-restful]: requests, responses, filters, routes and the container *)
(* ===================================================================== *)

Module restful.
Import GoStrings.

Definition MIME_JSON : string := "application/json".
Definition MIME_XML : string := "application/xml".

Definition HEADER_Origin : string := "Origin".
Definition HEADER_AccessControlRequestMethod : string := "Access-Control-Request-Method".
Definition HEADER_AccessControlRequestHeaders : string := "Access-Control-Request-Headers".
Definition HEADER_AccessControlAllowMethods : string := "Access-Control-Allow-Methods".
Definition HEADER_AccessControlAllowHeaders : string := "Access-Control-Allow-Headers".
Definition HEADER_AccessControlAllowOrigin : string := "Access-Control-Allow-Origin".
Definition HEADER_AccessControlAllowCredentials : string := "Access-Control-Allow-Credentials".

(** [restful.Request]: the [http.Request] and the path parameters the
    router extracted. *)
Record Request : Type := mkRequest {
  RequestOf : http.Request;
  pathParameters : list (string * string)
}.

Definition NewRequest (r : http.Request) : Request := mkRequest r [].

Definition PathParameter_of (req : Request) (name : string) : string :=
  match find (fun kv => String.eqb (fst kv) name) (pathParameters req) with
  | Some kv => snd kv
  | None => ""
  end.

(** [restful.Response]: the status code written so far ([0] while no
    header was written), the number of body bytes written, and the
    response headers. *)
Record Response : Type := mkResponse {
  statusCode : Z;
  contentLength : Z;
  header : http.Header
}.

Definition NewResponse : Response := mkResponse 0 0 ∅.

(** [resp.StatusCode()]: 200 until a header is written. *)
Definition StatusCode (r : Response) : Z :=
  if statusCode r =? 0 then http.StatusOK else statusCode r.

Definition ContentLength (r : Response) : Z := contentLength r.

Definition WriteHeader (httpStatus : Z) (r : Response) : Response :=
  mkResponse httpStatus (contentLength r) (header r).

Definition Write (bytes : string) (r : Response) : Response :=
  mkResponse (statusCode r) (contentLength r + Z.of_nat (String.length bytes)) (header r).

Definition AddHeader (name value : string) (r : Response) : Response :=
  mkResponse (statusCode r) (contentLength r) (http.Header_Add (header r) name value).

Definition WriteErrorString (httpStatus : Z) (errorReason : string) (r : Response) : Response :=
  r |> WriteHeader httpStatus |> Write errorReason.

(** [restful.RouteFunction]: a handler reads the request and writes the
    response. *)
Definition RouteFunction : Type := Request -> Response -> Response.

(** The operations of the resource handlers, the health check and the
    API description: a label carried by each handler so that a run
    records which handlers it reached. *)
Inductive HandlerOp : Type :=
| JobGet | JobLogs
| BuildGet | BuildJobs | BuildLogs
| ProjectList | ProjectGet | ProjectBuilds | ProjectListWithLatestBuild
| HealthCheck
| OpenAPIDoc.

Record Handler : Type := mkHandler {
  op : HandlerOp;
  run : RouteFunction
}.

(** What one request can change: the response under construction, the
    lines the process-wide access [logger] has printed, the wall
    clock, and the handlers reached so far. *)
Record World : Type := mkWorld {
  response : Response;
  accessLog : list string;
  clock : time.Time;
  reached : list HandlerOp
}.

Definition with_response (f : Response -> Response) (w : World) : World :=
  mkWorld (f (response w)) (accessLog w) (clock w) (reached w).

(** The rest of a filter chain, [chain.ProcessFilter]. *)
Definition Chain : Type := Request -> World -> World.

(** [restful.FilterFunction], [func(req, resp, chain)]. *)
Definition FilterFunction : Type := Request -> World -> Chain -> World.

(** Modelled from the spec: [FilterChain.ProcessFilter] of go-restful,
    which is not among the sources; section 4.3 has the filters as an
    ordered list, each wrapping the next, with the target after the
    last one. *)
Fixpoint ProcessFilter (Filters : list FilterFunction) (Target : Chain) : Chain :=
  fun req w =>
    match Filters with
    | [] => Target req w
    | f :: rest => f req w (ProcessFilter rest Target)
    end.

(** A built route: method, full path, handler and its documentation. *)
Record Route : Type := mkRoute {
  Method : string;
  Path : string;
  Function : Handler;
  Doc : string;
  ParameterDocs : list (string * string * string);
  Metadata : list (string * list string);
  WriteSample : string;
  ResponseErrors : list (Z * string);
  Filters : list FilterFunction
}.

Record WebService : Type := mkWebService {
  rootPath : string;
  consumes : list string;
  produces : list string;
  routes : list Route;
  filters : list FilterFunction
}.

Definition new_WebService : WebService := mkWebService "" [] [] [] [].

Definition WebService_Path (root : string) (ws : WebService) : WebService :=
  mkWebService root (consumes ws) (produces ws) (routes ws) (filters ws).

Definition Consumes (accepts : list string) (ws : WebService) : WebService :=
  mkWebService (rootPath ws) accepts (produces ws) (routes ws) (filters ws).

Definition Produces (contentTypes : list string) (ws : WebService) : WebService :=
  mkWebService (rootPath ws) (consumes ws) contentTypes (routes ws) (filters ws).

(** [RouteBuilder]: a route under construction. *)
Record RouteBuilder : Type := mkRouteBuilder {
  rb_rootPath : string;
  rb_currentPath : string;
  rb_httpMethod : string;
  rb_function : option Handler;
  rb_doc : string;
  rb_parameters : list (string * string * string);
  rb_metadata : list (string * list string);
  rb_writeSample : string;
  rb_errorMap : list (Z * string)
}.

(** [ws.GET(subPath)]. *)
Definition GET (ws : WebService) (subPath : string) : RouteBuilder :=
  mkRouteBuilder (rootPath ws) subPath "GET" None "" [] [] "" [].

Definition To (h : Handler) (b : RouteBuilder) : RouteBuilder :=
  mkRouteBuilder (rb_rootPath b) (rb_currentPath b) (rb_httpMethod b) (Some h)
    (rb_doc b) (rb_parameters b) (rb_metadata b) (rb_writeSample b) (rb_errorMap b).

Definition RouteDoc (documentation : string) (b : RouteBuilder) : RouteBuilder :=
  mkRouteBuilder (rb_rootPath b) (rb_currentPath b) (rb_httpMethod b) (rb_function b)
    documentation (rb_parameters b) (rb_metadata b) (rb_writeSample b) (rb_errorMap b).

(** [ws.PathParameter(name, description).DataType(t)]. *)
Definition PathParameter (name description : string) : string * string * string :=
  (name, description, "").

Definition DataType (t : string) (p : string * string * string) : string * string * string :=
  (fst (fst p), snd (fst p), t).

Definition Param (p : string * string * string) (b : RouteBuilder) : RouteBuilder :=
  mkRouteBuilder (rb_rootPath b) (rb_currentPath b) (rb_httpMethod b) (rb_function b)
    (rb_doc b) (rb_parameters b ++ [p])%list (rb_metadata b) (rb_writeSample b) (rb_errorMap b).

Definition RouteMetadata (key : string) (value : list string) (b : RouteBuilder) : RouteBuilder :=
  mkRouteBuilder (rb_rootPath b) (rb_currentPath b) (rb_httpMethod b) (rb_function b)
    (rb_doc b) (rb_parameters b) (rb_metadata b ++ [(key, value)])%list (rb_writeSample b)
    (rb_errorMap b).

Definition Writes (sample : string) (b : RouteBuilder) : RouteBuilder :=
  mkRouteBuilder (rb_rootPath b) (rb_currentPath b) (rb_httpMethod b) (rb_function b)
    (rb_doc b) (rb_parameters b) (rb_metadata b) sample (rb_errorMap b).

Definition Returns (code : Z) (message : string) (b : RouteBuilder) : RouteBuilder :=
  mkRouteBuilder (rb_rootPath b) (rb_currentPath b) (rb_httpMethod b) (rb_function b)
    (rb_doc b) (rb_parameters b) (rb_metadata b) (rb_writeSample b)
    (rb_errorMap b ++ [(code, message)])%list.

(** [concatPath(path1, path2)]. *)
Definition concatPath (path1 path2 : string) : string :=
  TrimRight path1 "/" ++ "/" ++ TrimLeft path2 "/".

(** [builder.Build()]; the library stops the process on a builder
    without a function, which builds no route here. *)
Definition Build (b : RouteBuilder) : option Route :=
  match rb_function b with
  | None => None
  | Some h =>
      Some (mkRoute (rb_httpMethod b) (concatPath (rb_rootPath b) (rb_currentPath b)) h
              (rb_doc b) (rb_parameters b) (rb_metadata b) (rb_writeSample b)
              (rb_errorMap b) [])
  end.

(** [ws.Route(builder)]. *)
Definition AddRoute (b : RouteBuilder) (ws : WebService) : WebService :=
  match Build b with
  | Some r =>
      mkWebService (rootPath ws) (consumes ws) (produces ws) (routes ws ++ [r])%list (filters ws)
  | None => ws
  end.

(** [restful.Container]: the registered web services and the
    container filters, both in the order they were registered. *)
Record Container : Type := mkContainer {
  webServices : list WebService;
  containerFilters : list FilterFunction
}.

Definition NewContainer : Container := mkContainer [] [].

(** [c.Add(ws)]: appends a web service. *)
Definition Add (ws : WebService) (c : Container) : Container :=
  mkContainer (webServices c ++ [ws])%list (containerFilters c).

(** Modelled from the spec: [Container.Filter] of go-restful, which is
    not among the sources; it appends [f] to the container filters, so
    that the chain keeps the order of registration (section 9). *)
Definition Filter (f : FilterFunction) (c : Container) : Container :=
  mkContainer (webServices c) (containerFilters c ++ [f])%list.

Definition RegisteredWebServices (c : Container) : list WebService := webServices c.

(** [tokenizePath]: the segments of a path between its slashes. *)
Definition tokenizePath (path : string) : list string :=
  if String.eqb path "/" then [] else Split (Trim path "/") "/".

(** A route token [{name}] stands for any request token; any other
    token only for itself. *)
Fixpoint matchesTokens (routeTokens requestTokens : list string) : bool :=
  match routeTokens, requestTokens with
  | [], [] => true
  | rt :: rts, qt :: qts =>
      (String.prefix "{" rt || String.eqb qt rt) && matchesTokens rts qts
  | _, _ => false
  end.

Fixpoint extractParameters (routeTokens requestTokens : list string) : list (string * string) :=
  match routeTokens, requestTokens with
  | rt :: rts, qt :: qts =>
      if String.prefix "{" rt
      then (TrimRight (TrimLeft rt "{") "}", qt) :: extractParameters rts qts
      else extractParameters rts qts
  | _, _ => []
  end.

Record ServiceError : Type := mkServiceError {
  Code : Z;
  Message : string
}.

Definition allRoutes (wss : list WebService) : list (WebService * Route) :=
  flat_map (fun ws => map (pair ws) (routes ws)) wss.

(** Modelled from the spec: the router of go-restful, which is not
    among the sources; section 2 has the Route Registry as a static
    table binding HTTP method and path pattern to a handler operation.
    The first registered route whose path pattern and method match is
    selected; no pattern matching is 404, a pattern matching under
    another method only is 405.  Content negotiation is left out
    (section 6: a presentation detail). *)
Definition SelectRoute (wss : list WebService) (httpRequest : http.Request)
  : (WebService * Route) + ServiceError :=
  let requestTokens := tokenizePath (http.Path (http.URLOf httpRequest)) in
  let byPath :=
    List.filter (fun wr => matchesTokens (tokenizePath (Path (snd wr))) requestTokens)
      (allRoutes wss) in
  match byPath with
  | [] => inr (mkServiceError http.StatusNotFound "404: Page Not Found")
  | _ =>
      match List.filter (fun wr => String.eqb (Method (snd wr)) (http.Method httpRequest)) byPath with
      | [] => inr (mkServiceError http.StatusMethodNotAllowed "405: Method Not Allowed")
      | wr :: _ => inl wr
      end
  end.

(** Calling a route's function: the handler is reached and writes the
    response. *)
Definition callHandler (h : Handler) : Chain :=
  fun req w =>
    mkWorld (run h req (response w)) (accessLog w) (clock w) (reached w ++ [op h])%list.

(** Modelled from the spec: [Container.dispatch] of go-restful, which
    is not among the sources; section 2 has the control flow as filter
    chain (pre), route dispatch, handler, filter chain (post).  The
    container filters come first, then those of the web service and
    of the route; when no route is selected the container filters
    still run, around the writing of the routing error. *)
Definition dispatch (c : Container) (httpRequest : http.Request) : World -> World :=
  match SelectRoute (webServices c) httpRequest with
  | inr err =>
      ProcessFilter (containerFilters c)
        (fun _ w => with_response (WriteErrorString (Code err) (Message err)) w)
        (NewRequest httpRequest)
  | inl (ws, route) =>
      let pathParams :=
        extractParameters (tokenizePath (Path route))
          (tokenizePath (http.Path (http.URLOf httpRequest))) in
      let allFilters := (containerFilters c ++ filters ws ++ Filters route)%list in
      ProcessFilter allFilters (callHandler (Function route))
        (mkRequest httpRequest pathParams)
  end.

(** ** The CORS filter *)

(** [restful.CrossOriginResourceSharing]; its [Container] field is
    only read when [AllowedMethods] is empty and is left out. *)
Record CrossOriginResourceSharing : Type := mkCORS {
  ExposeHeaders : list string;
  AllowedHeaders : list string;
  AllowedDomains : list string;
  AllowedMethods : list string;
  MaxAge : Z;
  CookiesAllowed : bool
}.

Definition ToLower_ascii (a : ascii) : ascii :=
  let n := nat_of_ascii a in
  if ((65 <=? n) && (n <=? 90))%nat then ascii_of_nat (n + 32) else a.

Fixpoint ToLower (s : string) : string :=
  match s with
  | EmptyString => EmptyString
  | String a rest => String (ToLower_ascii a) (ToLower rest)
  end.

Definition isOriginAllowed (c : CrossOriginResourceSharing) (origin : string) : bool :=
  if (String.length origin =? 0)%nat then false
  else match AllowedDomains c with
       | [] => true
       | domains => existsb (String.eqb origin) domains
       end.

Definition isValidAccessControlRequestMethod (method : string) (allowedMethods : list string) : bool :=
  existsb (fun each => String.eqb each method) allowedMethods.

Definition isValidAccessControlRequestHeader (c : CrossOriginResourceSharing) (h : string) : bool :=
  existsb (fun each => String.eqb (ToLower each) (ToLower h)) (AllowedHeaders c).

Definition setOptionsHeaders (c : CrossOriginResourceSharing) (req : Request) (resp : Response) : Response :=
  let resp :=
    match ExposeHeaders c with
    | [] => resp
    | hs => AddHeader "Access-Control-Expose-Headers" (String.concat "," hs) resp
    end in
  let origin := http.Header_Get (http.HeaderOf (RequestOf req)) HEADER_Origin in
  let resp :=
    if isOriginAllowed c origin
    then AddHeader HEADER_AccessControlAllowOrigin origin resp else resp in
  let resp :=
    if CookiesAllowed c
    then AddHeader HEADER_AccessControlAllowCredentials "true" resp else resp in
  if 0 <? MaxAge c then AddHeader "Access-Control-Max-Age" (Itoa (MaxAge c)) resp else resp.

Definition doActualRequest := setOptionsHeaders.

(** The preflight answer: the allow headers when the requested method
    and headers are allowed, nothing otherwise; the status stays at
    its default, 200, and no body is written. *)
Definition doPreflightRequest (c : CrossOriginResourceSharing) (req : Request) (resp : Response) : Response :=
  let acrm := http.Header_Get (http.HeaderOf (RequestOf req)) HEADER_AccessControlRequestMethod in
  if negb (isValidAccessControlRequestMethod acrm (AllowedMethods c)) then resp
  else
    let acrhs := http.Header_Get (http.HeaderOf (RequestOf req)) HEADER_AccessControlRequestHeaders in
    if (0 <? String.length acrhs)%nat
       && negb (forallb (fun each => isValidAccessControlRequestHeader c (Trim each " "))
                  (Split acrhs ","))
    then resp
    else
      resp
      |> AddHeader HEADER_AccessControlAllowMethods (String.concat "," (AllowedMethods c))
      |> AddHeader HEADER_AccessControlAllowHeaders acrhs
      |> setOptionsHeaders c req.

(** Modelled from the spec: [CrossOriginResourceSharing.Filter] of
    go-restful, which is not among the sources; section 4.3 has it
    inject the CORS headers and short-circuit OPTIONS preflight
    requests before the handler.  A request without an allowed Origin
    is no CORS request and passes on unchanged; a preflight is an
    OPTIONS request that names the method it asks for. *)
Definition CORS_Filter (c : CrossOriginResourceSharing) : FilterFunction :=
  fun req w chain =>
    let origin := http.Header_Get (http.HeaderOf (RequestOf req)) HEADER_Origin in
    if (String.length origin =? 0)%nat then chain req w
    else if negb (isOriginAllowed c origin) then chain req w
    else if negb (String.eqb (http.Method (RequestOf req)) "OPTIONS")
    then chain req (with_response (doActualRequest c req) w)
    else if negb (String.eqb
                    (http.Header_Get (http.HeaderOf (RequestOf req))
                       HEADER_AccessControlRequestMethod) "")
    then with_response (doPreflightRequest c req) w
    else chain req (with_response (doActualRequest c req) w).

End restful.

(* ===================================================================== *)
(** * [os] and [flag]: environment and command line *)
(* ===================================================================== *)

Module os.

(** The process environment. *)
Definition Env : Type := gmap string string.

(** [os.LookupEnv(key)]: the value and whether the variable is set. *)
Definition LookupEnv (env : Env) (key : string) : string * bool :=
  match env !! key with
  | Some v => (v, true)
  | None => ("", false)
  end.

End os.

Module flag.

(** The string flags registered so far, each with the current value of
    the variable it is bound to. *)
Definition FlagSet : Type := gmap string string.

(** [flag.StringVar(&p, name, value, usage)]: registers the flag and
    stores the default in the variable. *)
Definition StringVar (name value usage : string) (f : FlagSet) : FlagSet :=
  <[name := value]> f.

(** The name of a flag argument, without its one or two dashes. *)
Definition flagName (s : string) : option string :=
  match s with
  | String "-" (String "-" name) => Some name
  | String "-" name => Some name
  | _ => None
  end.

(** Splits [name=value] at the first [=] after the first byte. *)
Fixpoint cutValue (name : string) : string * option string :=
  match name with
  | EmptyString => (EmptyString, None)
  | String c rest =>
      if Ascii.eqb c "=" then (EmptyString, Some rest)
      else let (n, v) := cutValue rest in (String c n, v)
  end.

Definition splitNameValue (name : string) : string * option string :=
  match name with
  | EmptyString => (EmptyString, None)
  | String c rest => let (n, v) := cutValue rest in (String c n, v)
  end.

(** [flag.Parse()] over string flags: [-name value], [-name=value] and
    the same with two dashes; parsing stops at the first argument that
    is no flag and at [--].  [None] is the exit of the process on bad
    syntax, on a flag that was not defined ([-h] and [-help] among
    them) and on a flag without its value. *)
Fixpoint Parse (f : FlagSet) (args : list string) : option FlagSet :=
  match args with
  | [] => Some f
  | s :: rest =>
      if (String.length s <? 2)%nat then Some f
      else if String.eqb s "--" then Some f
      else
        match flagName s with
        | None => Some f
        | Some name =>
            if String.eqb name "" || String.prefix "-" name || String.prefix "=" name
            then None
            else
              let (name, value) := splitNameValue name in
              match f !! name with
              | None => None
              | Some _ =>
                  match value with
                  | Some v => Parse (<[name := v]> f) rest
                  | None =>
                      match rest with
                      | [] => None
                      | v :: rest' => Parse (<[name := v]> f) rest'
                      end
                  end
              end
        end
  end.

(** The variable a flag is bound to, after [Parse]. *)
Definition value_of (f : FlagSet) (name : string) : string :=
  default "" (f !! name).

End flag.

(* ===================================================================== *)
(** * Brigade's [pkg/api] and [go-restful-openapi], as [main.go] sees them *)
(* ===================================================================== *)

Module api.
Import restful.

(** The handler sets behind [server.Job()], [server.Build()] and
    [server.Project()]; the handler bodies are in [pkg/api]. *)
Record JobAPI : Type := mkJobAPI {
  job_Get : RouteFunction;
  job_Logs : RouteFunction
}.

Record BuildAPI : Type := mkBuildAPI {
  build_Get : RouteFunction;
  build_Jobs : RouteFunction;
  build_Logs : RouteFunction
}.

Record ProjectAPI : Type := mkProjectAPI {
  project_List : RouteFunction;
  project_Get : RouteFunction;
  project_Builds : RouteFunction;
  project_ListWithLatestBuild : RouteFunction
}.

Record API : Type := mkAPI {
  Job : JobAPI;
  Build : BuildAPI;
  Project : ProjectAPI
}.

Definition Job_Get (j : JobAPI) : Handler := mkHandler JobGet (job_Get j).
Definition Job_Logs (j : JobAPI) : Handler := mkHandler JobLogs (job_Logs j).
Definition Build_Get (b : BuildAPI) : Handler := mkHandler BuildGet (build_Get b).
Definition Build_Jobs (b : BuildAPI) : Handler := mkHandler BuildJobs (build_Jobs b).
Definition Build_Logs (b : BuildAPI) : Handler := mkHandler BuildLogs (build_Logs b).
Definition Project_List (p : ProjectAPI) : Handler := mkHandler ProjectList (project_List p).
Definition Project_Get (p : ProjectAPI) : Handler := mkHandler ProjectGet (project_Get p).
Definition Project_Builds (p : ProjectAPI) : Handler :=
  mkHandler ProjectBuilds (project_Builds p).
Definition Project_ListWithLatestBuild (p : ProjectAPI) : Handler :=
  mkHandler ProjectListWithLatestBuild (project_ListWithLatestBuild p).

End api.

Module restfulspec.
Import restful.

Definition KeyOpenAPITags : string := "openapi.tags".

(** [spec.Swagger], reduced to what [enrichSwaggerObject] sets. *)
Record Info : Type := mkInfo {
  Title : string;
  Description : string;
  LicenseName : string;
  LicenseURL : string;
  Version : string
}.

Record Swagger : Type := mkSwagger {
  InfoOf : option Info;
  Tags : list (string * string)
}.

Record Config : Type := mkConfig {
  WebServices : list WebService;
  APIPath : string;
  PostBuildSwaggerObjectHandler : Swagger -> Swagger
}.

(** [restfulspec.NewOpenAPIService(config)]: a web service rooted at
    [config.APIPath] whose single GET route serves the description of
    [config.WebServices]; [getSwagger] is the library's handler. *)
Definition NewOpenAPIService (getSwagger : Config -> RouteFunction) (config : Config) : WebService :=
  let ws := new_WebService |> WebService_Path (APIPath config) |> Produces [MIME_JSON] in
  ws |> AddRoute (GET ws "/" |> To (mkHandler OpenAPIDoc (getSwagger config))).

End restfulspec.

(* ===================================================================== *)
(** * [main.go] *)
(* ===================================================================== *)

Module v1.
(** [v1.NamespaceDefault] of [k8s.io/api/core/v1]. *)
Definition NamespaceDefault : string := "default".
End v1.

Module Main.
Import GoStrings restful.

(** ** Bootstrap defaults and flags *)

Definition defaultNamespace (env : os.Env) : string :=
  let (ns, ok) := os.LookupEnv env "BRIGADE_NAMESPACE" in
  if ok then ns else v1.NamespaceDefault.

Definition defaultAPIPort (env : os.Env) : string :=
  let (port, ok) := os.LookupEnv env "BRIGADE_API_PORT" in
  if ok then port else "7745".

(** [init]: the four flags, bound to the package variables
    [kubeconfig], [master], [namespace] and [apiPort]. *)
Definition init (env : os.Env) : flag.FlagSet :=
  (∅ : flag.FlagSet)
  |> flag.StringVar "kubeconfig" "" "absolute path to the kubeconfig file"
  |> flag.StringVar "master" "" "master url"
  |> flag.StringVar "namespace" (defaultNamespace env) "kubernetes namespace"
  |> flag.StringVar "api-port" (defaultAPIPort env) "TCP port to use for brigade-api".

Definition kubeconfig (f : flag.FlagSet) : string := flag.value_of f "kubeconfig".
Definition master (f : flag.FlagSet) : string := flag.value_of f "master".
Definition namespace (f : flag.FlagSet) : string := flag.value_of f "namespace".
Definition apiPort (f : flag.FlagSet) : string := flag.value_of f "api-port".

(** ** The web services *)

Record jobService : Type := mkJobService { js_server : api.API }.
Record buildService : Type := mkBuildService { bs_server : api.API }.
Record projectService : Type := mkProjectService { ps_server : api.API }.
Record healthService : Type := mkHealthService { }.

Definition produced : list string :=
  [MIME_JSON; MIME_XML; "plain/text"; "text/javascript"].

Definition jobService_WebService (js : jobService) : WebService :=
  let j := api.Job (js_server js) in
  let ws := new_WebService
            |> WebService_Path "/v1/job"
            |> Consumes [MIME_JSON]
            |> Produces produced in
  let tags := ["job"] in
  let ws := ws |> AddRoute (GET ws "/{id}" |> To (api.Job_Get j)
                  |> RouteDoc "get a job"
                  |> Param (PathParameter "id" "identifier of the job" |> DataType "string")
                  |> RouteMetadata restfulspec.KeyOpenAPITags tags
                  |> Writes "brigade.Job"
                  |> Returns 200 "OK"
                  |> Returns 404 "Not Found") in
  let ws := ws |> AddRoute (GET ws "/{id}/logs" |> To (api.Job_Logs j)
                  |> RouteDoc "get job logs"
                  |> Param (PathParameter "id" "identifier of the job" |> DataType "string")
                  |> RouteMetadata restfulspec.KeyOpenAPITags tags
                  |> Writes "[]byte"
                  |> Returns 200 "OK"
                  |> Returns 404 "Not Found") in
  ws.

Definition buildService_WebService (bs : buildService) : WebService :=
  let b := api.Build (bs_server bs) in
  let ws := new_WebService
            |> WebService_Path "/v1/build"
            |> Consumes [MIME_JSON]
            |> Produces produced in
  let tags := ["build"] in
  let ws := ws |> AddRoute (GET ws "/{id}" |> To (api.Build_Get b)
                  |> RouteDoc "get a build"
                  |> Param (PathParameter "id" "id of the build" |> DataType "string")
                  |> RouteMetadata restfulspec.KeyOpenAPITags tags
                  |> Writes "brigade.Build"
                  |> Returns 200 "OK"
                  |> Returns 404 "Not Found") in
  let ws := ws |> AddRoute (GET ws "/{id}/jobs" |> To (api.Build_Jobs b)
                  |> RouteDoc "get jobs of a build"
                  |> Param (PathParameter "id" "id of the build" |> DataType "string")
                  |> RouteMetadata restfulspec.KeyOpenAPITags tags
                  |> Writes "[]brigade.Job"
                  |> Returns 200 "OK"
                  |> Returns 404 "Not Found") in
  let ws := ws |> AddRoute (GET ws "/{id}/logs" |> To (api.Build_Logs b)
                  |> RouteDoc "get logs of a build"
                  |> Param (PathParameter "id" "id of the build" |> DataType "string")
                  |> RouteMetadata restfulspec.KeyOpenAPITags tags
                  |> Writes "[]byte"
                  |> Returns 200 "OK"
                  |> Returns 404 "Not Found") in
  ws.

Definition projectService_WebService (ps : projectService) : WebService :=
  let p := api.Project (ps_server ps) in
  let ws := new_WebService
            |> WebService_Path "/v1"
            |> Consumes [MIME_JSON]
            |> Produces produced in
  let tags := ["projects"] in
  let ws := ws |> AddRoute (GET ws "/projects" |> To (api.Project_List p)
                  |> RouteDoc "get all projects"
                  |> RouteMetadata restfulspec.KeyOpenAPITags tags
                  |> Writes "[]brigade.Project"
                  |> Returns 200 "OK"
                  |> Returns 404 "Not Found") in
  let ws := ws |> AddRoute (GET ws "/project/{id}" |> To (api.Project_Get p)
                  |> Param (PathParameter "id" "id of the project" |> DataType "string")
                  |> RouteDoc "get a project"
                  |> RouteMetadata restfulspec.KeyOpenAPITags tags
                  |> Writes "brigade.Project"
                  |> Returns 200 "OK"
                  |> Returns 404 "Not Found") in
  let ws := ws |> AddRoute (GET ws "/project/{id}/builds" |> To (api.Project_Builds p)
                  |> RouteDoc "get list of builds for a project"
                  |> Param (PathParameter "id" "id of the project" |> DataType "string")
                  |> RouteMetadata restfulspec.KeyOpenAPITags tags
                  |> Writes "[]brigade.Build"
                  |> Returns 200 "OK"
                  |> Returns 404 "Not Found") in
  let ws := ws |> AddRoute (GET ws "/projects-build" |> To (api.Project_ListWithLatestBuild p)
                  |> RouteDoc "lists the projects with the latest builds attached."
                  |> RouteMetadata restfulspec.KeyOpenAPITags tags
                  |> Writes "[]api.ProjectBuildSummary"
                  |> Returns 200 "OK"
                  |> Returns 404 "Not Found") in
  ws.

(** [api.Healthz] is a function of [pkg/api]; its body is not among
    the sources and the route table takes it as given. *)
Definition healthService_WebService (api_Healthz : RouteFunction) (hs : healthService) : WebService :=
  let ws := new_WebService
            |> WebService_Path "/healthz"
            |> Consumes [MIME_JSON]
            |> Produces [MIME_JSON] in
  let tags := ["healthz"] in
  let ws := ws |> AddRoute (GET ws "/" |> To (mkHandler HealthCheck api_Healthz)
                  |> RouteDoc "get health status"
                  |> RouteMetadata restfulspec.KeyOpenAPITags tags
                  |> Writes "[]byte"
                  |> Returns 200 "OK"
                  |> Returns 404 "Not Found") in
  ws.

Definition enrichSwaggerObject (swo : restfulspec.Swagger) : restfulspec.Swagger :=
  restfulspec.mkSwagger
    (Some (restfulspec.mkInfo "Brigade API" "Resources for Jobs, Projects, Builds"
             "MIT" "http://mit.org" "1.0.0"))
    [("brigade", "Brigade")].

(** ** The access-log filter *)

(** [logger.Printf(format, args...)] on the process-wide [logger], a
    [log.Logger] on standard output without prefix or flags: one line
    per call. *)
Definition logger_Printf (format : string) (args : list Arg) (w : World) : World :=
  mkWorld (response w) (accessLog w ++ [Sprintf format args])%list (clock w) (reached w).

Definition logFormat : string :=
  "%s - %s [%s] " ++ dquote ++ "%s %s %s" ++ dquote ++ " %d %d".

Definition logLayout : string := "02/Jan/2006:15:04:05 -0700".

(** The [username] variable of the filter. *)
Definition usernameOf (req : Request) : string :=
  match http.User (http.URLOf (RequestOf req)) with
  | Some user =>
      let name := http.Username user in
      if negb (String.eqb name "") then name else "-"
  | None => "-"
  end.

(** The first piece of [req.Request.RemoteAddr] split at its colons;
    [Split] never returns an empty slice, so the index [0] is in
    range. *)
Definition remoteHostOf (req : Request) : string :=
  default "" (index0 (Split (http.RemoteAddr (RequestOf req)) ":")).

Definition nCSACommonLogFormatLogger : FilterFunction :=
  fun req w chain =>
    let username := usernameOf req in
    let w := chain req w in
    logger_Printf logFormat
      [ AStr (remoteHostOf req);
        AStr username;
        AStr (time.Format (clock w) logLayout);
        AStr (http.Method (RequestOf req));
        AStr (http.RequestURI (http.URLOf (RequestOf req)));
        AStr (http.Proto (RequestOf req));
        AInt (StatusCode (response w));
        AInt (ContentLength (response w)) ]
      w.

(** ** The wiring of [main] *)

Definition cors : CrossOriginResourceSharing :=
  mkCORS [] ["Content-Type"; "Accept"] [] ["GET"; "POST"; "PUT"; "DELETE"] 0 false.

Section Wiring.
(** The functions [main] takes from [pkg/api] and from
    [go-restful-openapi]. *)
Variable api_Healthz : RouteFunction.
Variable getSwagger : restfulspec.Config -> RouteFunction.

(** [restful.DefaultContainer] as [main] leaves it, for the [server]
    that [api.New(storage)] returned. *)
Definition main_container (server : api.API) : Container :=
  let j := mkJobService server in
  let b := mkBuildService server in
  let p := mkProjectService server in
  let h := mkHealthService in
  let c := NewContainer
           |> Add (jobService_WebService j)
           |> Add (buildService_WebService b)
           |> Add (projectService_WebService p)
           |> Add (healthService_WebService api_Healthz h)
           |> Filter nCSACommonLogFormatLogger in
  let config := restfulspec.mkConfig (RegisteredWebServices c) "/apidocs.json"
                  enrichSwaggerObject in
  let c := c |> Add (restfulspec.NewOpenAPIService getSwagger config) in
  c |> Filter (CORS_Filter cors).

(** [http.Server{Addr, Handler}]. *)
Record Server : Type := mkServer {
  Addr : string;
  HandlerOf : Container
}.

(** [main]: parse the flags, build the client, the storage and the
    API server, wire the container and serve on the API port.
    [None] is the exit of the process, on a bad command line or when
    the Kubernetes client cannot be built. *)
Definition main {Clientset Storage : Type}
    (kube_GetClient : string -> string -> option Clientset)
    (kube_New : Clientset -> string -> Storage)
    (api_New : Storage -> api.API)
    (env : os.Env) (args : list string) : option Server :=
  match flag.Parse (init env) args with
  | None => None
  | Some f =>
      match kube_GetClient (master f) (kubeconfig f) with
      | None => None
      | Some clientset =>
          let storage := kube_New clientset (namespace f) in
          let server := api_New storage in
          let formattedAPIPort := Sprintf ":%v" [AStr (apiPort f)] in
          Some (mkServer formattedAPIPort (main_container server))
      end
  end.
End Wiring.

End Main.

(* ===================================================================== *)
(** * The aggregation and by-id handlers of [pkg/api] *)
(* ===================================================================== *)

(** The handler bodies behind [p.ListWithLatestBuild], [j.Get], [b.Get]
    and [p.Get] are in [pkg/api], of which [main.go] only has the route
    declarations.  They are modelled here after sections 3, 4.1, 4.2 and
    7 of the specification. *)

Module Model.

Definition Error : Type := string.

(** A fallible call of the Resource Reader. *)
Inductive Result (A : Type) : Type :=
| Ok (a : A)
| Err (e : Error).
Arguments Ok {A} a.
Arguments Err {A} e.

Record Project : Type := mkProject {
  ProjectID : string;
  Repo : string;
  SecretsRef : string
}.

Record Build : Type := mkBuild {
  BuildID : string;
  OwnerID : string;
  Created : Z;
  Terminal : bool;
  JobIDs : list string
}.

Record Job : Type := mkJob {
  JobID : string;
  OwnerBuildID : string;
  JobStatus : string
}.

(** Modelled from the spec: the Resource Reader, an external
    collaborator; section 1 has its listing calls as fallible
    capabilities and section 6 has each by-id call return a value, a
    found flag and an error. *)
Record Reader : Type := mkReader {
  ListProjects : Result (list Project);
  ListBuilds : string -> Result (list Build);
  GetProject : string -> Project * bool * option Error;
  GetBuild : string -> Build * bool * option Error;
  GetJob : string -> Job * bool * option Error
}.

(** ** The Aggregator *)

(** The pairing of a summary: a build, the explicit marker of a project
    without builds, or the indicator of a failed build lookup. *)
Inductive LatestBuild : Type :=
| NoBuild
| Latest (b : Build)
| BuildLookupFailed (e : Error).

Record ProjectBuildSummary : Type := mkSummary {
  SummaryProject : Project;
  SummaryBuild : LatestBuild
}.

(** Lexical order on identifiers, byte by byte. *)
Definition id_ltb (a b : string) : bool :=
  match String_as_OT.compare a b with
  | Lt => true
  | _ => false
  end.

(** Modelled from the spec: the order of section 3 on the builds of a
    project, by creation timestamp and, on equal timestamps, by
    identifier.  [later a b] says that [b] comes after [a]. *)
Definition later (a b : Build) : bool :=
  (Created a <? Created b)
  || ((Created a =? Created b) && id_ltb (BuildID a) (BuildID b)).

(** Modelled from the spec: step 3 of section 4.1, the maximal build of
    a list, [None] for the empty list. *)
Definition pick (acc : option Build) (b : Build) : option Build :=
  match acc with
  | None => Some b
  | Some a => if later a b then Some b else Some a
  end.

(** Modelled from the spec: step 3 of section 4.1 over a whole list, in
    the order the Reader returned it. *)
Definition latest (builds : list Build) : option Build :=
  fold_left pick builds None.

(** Modelled from the spec: steps 2 and 3 of section 4.1 for one
    project, with the per-project failure of its edge cases. *)
Definition summarizeProject (r : Reader) (p : Project) : ProjectBuildSummary :=
  match ListBuilds r (ProjectID p) with
  | Err e => mkSummary p (BuildLookupFailed e)
  | Ok builds =>
      match latest builds with
      | None => mkSummary p NoBuild
      | Some b => mkSummary p (Latest b)
      end
  end.

(** Modelled from the spec: [Summarize] of section 4.1, the body of
    [ListWithLatestBuild] in [pkg/api]: one listing of the projects,
    then one summary per project in the order of the listing. *)
Definition Summarize (r : Reader) : Result (list ProjectBuildSummary) :=
  match ListProjects r with
  | Err e => Err e
  | Ok projects => Ok (map (summarizeProject r) projects)
  end.

(** ** Outcomes and status codes *)

(** The classification of section 7 for a by-id call. *)
Inductive Outcome (A : Type) : Type :=
| Found (a : A)
| NotFound
| BackendUnavailable (e : Error).
Arguments Found {A} a.
Arguments NotFound {A}.
Arguments BackendUnavailable {A} e.

(** Modelled from the spec: the classification of a Reader result
    (section 7): an error is BackendUnavailable whatever the found
    flag says, no error and not found is NotFound. *)
Definition classify {A : Type} (res : A * bool * option Error) : Outcome A :=
  match res with
  | (_, _, Some e) => BackendUnavailable e
  | (_, false, None) => NotFound
  | (a, true, None) => Found a
  end.

(** What a handler answers: the status and the entity it writes. *)
Record Reply (A : Type) : Type := mkReply {
  Status : Z;
  Entity : option A
}.
Arguments mkReply {A} Status Entity.
Arguments Status {A} r.
Arguments Entity {A} r.

(** Modelled from the spec: the statuses of the class 5xx, under which
    BackendUnavailable is surfaced (section 7: surfaced as 5xx, never
    conflated with NotFound).  The specification fixes the class, not
    the code within it. *)
Record ServerError : Type := mkServerError {
  ServerErrorCode : Z;
  ServerErrorCode_5xx : (500 <=? ServerErrorCode) && (ServerErrorCode <? 600) = true
}.

Definition ServiceUnavailable : ServerError := mkServerError 503 eq_refl.

Section ById.
(** The status of the class 5xx the by-id handlers answer when the
    Resource Reader fails. *)
Variable unavailable : ServerError.

(** Modelled from the spec: a by-id operation of section 4.2 with
    the statuses of sections 6 and 7: the entity with 200, 404 with
    an empty body, or a status of the class 5xx. *)
Definition respond {A : Type} (o : Outcome A) : Reply A :=
  match o with
  | Found a => mkReply http.StatusOK (Some a)
  | NotFound => mkReply http.StatusNotFound None
  | BackendUnavailable _ => mkReply (ServerErrorCode unavailable) None
  end.

(** Modelled from the spec: [Get(id)] of the Job handler, section 4.2. *)
Definition Job_Get (r : Reader) (id : string) : Reply Job :=
  respond (classify (GetJob r id)).

(** Modelled from the spec: [Get(id)] of the Build handler, section 4.2. *)
Definition Build_Get (r : Reader) (id : string) : Reply Build :=
  respond (classify (GetBuild r id)).

(** Modelled from the spec: [Get(id)] of the Project handler, section
    4.2. *)
Definition Project_Get (r : Reader) (id : string) : Reply Project :=
  respond (classify (GetProject r id)).
End ById.

Section Handlers.
(** The status under which BackendUnavailable is surfaced; the
    specification fixes its class, 5xx, not the code. *)
Variable backendStatus : Z.

(** Modelled from the spec: [ListWithLatestBuild] of section 4.2,
    which delegates to the Aggregator; a failed Summarize is a
    backend failure, anything else is 200 with the summaries,
    degraded items included (section 7). *)
Definition ListWithLatestBuild (r : Reader) : Reply (list ProjectBuildSummary) :=
  match Summarize r with
  | Ok summaries => mkReply http.StatusOK (Some summaries)
  | Err _ => mkReply backendStatus None
  end.
End Handlers.

(** A Reader over an in-memory store, for examples: [down] makes every
    call fail. *)
Record Store : Type := mkStore {
  projects : list Project;
  builds : list Build;
  jobs : gmap string Job;
  down : option Error;
  brokenProject : option string
}.

Definition zeroProject : Project := mkProject "" "" "".
Definition zeroBuild : Build := mkBuild "" "" 0 false [].
Definition zeroJob : Job := mkJob "" "" "".

Definition storeReader (s : Store) : Reader :=
  let guard {A} (zero : A) (found : option A) : A * bool * option Error :=
    match down s with
    | Some e => (zero, false, Some e)
    | None =>
        match found with
        | Some a => (a, true, None)
        | None => (zero, false, None)
        end
    end in
  mkReader
    (match down s with Some e => Err e | None => Ok (projects s) end)
    (fun pid =>
       match down s with
       | Some e => Err e
       | None =>
           if default false (String.eqb pid <$> brokenProject s)
           then Err "build listing failed"
           else Ok (List.filter (fun b => String.eqb (OwnerID b) pid) (builds s))
       end)
    (fun id => guard zeroProject (find (fun p => String.eqb (ProjectID p) id) (projects s)))
    (fun id => guard zeroBuild (find (fun b => String.eqb (BuildID b) id) (builds s)))
    (fun id => guard zeroJob (jobs s !! id)).

End Model.

(* ===================================================================== *)
(** * Sample data *)
(* ===================================================================== *)

Module Demo.
Import restful.

Definition p1 : Model.Project := Model.mkProject "p1" "github.com/acme/one" "p1-secret".
Definition p2 : Model.Project := Model.mkProject "p2" "github.com/acme/two" "p2-secret".
Definition p3 : Model.Project := Model.mkProject "p3" "github.com/acme/three" "p3-secret".

Definition b1 : Model.Build := Model.mkBuild "b1" "p1" 1000 true ["j1"].
Definition b2 : Model.Build := Model.mkBuild "b2" "p1" 2000 false [].
Definition b3 : Model.Build := Model.mkBuild "b3" "p3" 500 true [].
Definition b4 : Model.Build := Model.mkBuild "b4" "p3" 500 true [].

Definition j1 : Model.Job := Model.mkJob "j1" "b1" "Succeeded".

Definition store : Model.Store :=
  Model.mkStore [p1; p2; p3] [b1; b2; b3; b4] {[ "j1" := j1 ]} None None.

(** The same store with the build listing of [p1] failing, and with
    the whole backend unreachable. *)
Definition storeBrokenP1 : Model.Store :=
  Model.mkStore [p1; p2; p3] [b1; b2; b3; b4] {[ "j1" := j1 ]} None (Some "p1").


(** Writing a reply: the status, and a body when there is an entity. *)
Definition writeReply {A : Type} (encode : A -> string) (rep : Model.Reply A) : Response -> Response :=
  fun resp =>
    match Model.Entity rep with
    | Some a => resp |> WriteHeader (Model.Status rep) |> Write (encode a)
    | None => resp |> WriteHeader (Model.Status rep)
    end.

Definition ok : RouteFunction := fun _ resp => resp |> WriteHeader 200 |> Write "[]".

(** A server over [store]; its job lookup is the modelled handler. *)
Definition server : api.API :=
  api.mkAPI
    (api.mkJobAPI
       (fun req => writeReply Model.JobStatus
                     (Model.Job_Get Model.ServiceUnavailable (Model.storeReader store)
                        (PathParameter_of req "id")))
       ok)
    (api.mkBuildAPI ok ok ok)
    (api.mkProjectAPI ok ok ok ok).

Definition Healthz : RouteFunction := fun _ resp => resp |> WriteHeader 200 |> Write "OK".
Definition getSwagger : restfulspec.Config -> RouteFunction := fun _ => ok.

Definition container : Container := Main.main_container Healthz getSwagger server.

Definition now : time.Time := time.mkTime 2026 time.October 31 5 3 9 (-25200).

Definition world0 : World := mkWorld NewResponse [] now [].

Definition get (path remote : string) : http.Request :=
  http.mkRequest "GET" (http.mkURL path None path) "HTTP/1.1" ∅ remote.

Definition getUnknownJob : http.Request := get "/v1/job/unknown" "10.0.0.7:4312".

(** A CORS preflight: OPTIONS with an Origin, asking for GET. *)
Definition preflight : http.Request :=
  http.mkRequest "OPTIONS" (http.mkURL "/v1/projects" None "/v1/projects") "HTTP/1.1"
    {[ "Origin" := ["http://kashti.local"];
       "Access-Control-Request-Method" := ["GET"] ]}
    "[::1]:51234".

End Demo.

(* ===================================================================== *)
(** * Vocabulary of the properties *)
(* ===================================================================== *)

Module Props.
Import GoStrings restful.

(** [has_byte c s]: the byte [c] occurs in [s]. *)
Fixpoint has_byte (c : ascii) (s : string) : bool :=
  match s with
  | EmptyString => false
  | String a rest => Ascii.eqb a c || has_byte c rest
  end.

(** The portion of [s] before the first occurrence of [c], all of [s]
    when [c] does not occur. *)
Fixpoint before_first (c : ascii) (s : string) : string :=
  match s with
  | EmptyString => EmptyString
  | String a rest => if Ascii.eqb a c then EmptyString else String a (before_first c rest)
  end.

(** An identifier that can stand for one path segment. *)
Definition segment (id : string) : Prop :=
  id <> "" /\ has_byte "/" id = false.

(** The handler a container selects for a request, if any. *)
Definition selected (c : Container) (r : http.Request) : option Handler :=
  match SelectRoute (webServices c) r with
  | inl (_, route) => Some (Function route)
  | inr _ => None
  end.

(** What the filters of a container wrap for a request: the selected
    handler, or the writing of the routing error. *)
Definition target (c : Container) (r : http.Request) : Chain :=
  match SelectRoute (webServices c) r with
  | inl (_, route) => callHandler (Function route)
  | inr err => fun _ w => with_response (WriteErrorString (Code err) (Message err)) w
  end.

(** The request as the filters and the handler receive it. *)
Definition wrapped (c : Container) (r : http.Request) : Request :=
  match SelectRoute (webServices c) r with
  | inl (_, route) =>
      mkRequest r (extractParameters (tokenizePath (Path route))
                     (tokenizePath (http.Path (http.URLOf r))))
  | inr _ => NewRequest r
  end.

(** Onion composition of a chain of two filters: [outer] receives
    the request first, and what it calls as the rest of the chain is
    [inner] around the target. *)
Definition wraps (outer inner : FilterFunction) (fs : list FilterFunction) : Prop :=
  forall (Target : Chain) (req : Request) (w : World),
    ProcessFilter fs Target req w = outer req w (fun r1 w1 => inner r1 w1 Target).

(** Chains that leave the access log and the clock alone. *)
Definition quiet (chain : Chain) : Prop :=
  forall r w, accessLog (chain r w) = accessLog w /\ clock (chain r w) = clock w.

(** A CORS preflight request: OPTIONS, with an Origin, naming the
    method it asks for. *)
Definition is_preflight (r : http.Request) : bool :=
  String.eqb (http.Method r) "OPTIONS"
  && negb (String.eqb (http.Header_Get (http.HeaderOf r) HEADER_Origin) "")
  && negb (String.eqb (http.Header_Get (http.HeaderOf r) HEADER_AccessControlRequestMethod) "").

(** The access-log line of a request whose response ended as [resp],
    printed at time [t]. *)
Definition logLine (r : http.Request) (t : time.Time) (resp : Response) : string :=
  before_first ":" (http.RemoteAddr r) ++ " - "
  ++ match http.User (http.URLOf r) with
     | None => "-"
     | Some u => if String.eqb (http.Username u) "" then "-" else http.Username u
     end
  ++ " [" ++ time.Format t "02/Jan/2006:15:04:05 -0700" ++ "] "
  ++ dquote ++ http.Method r ++ " " ++ http.RequestURI (http.URLOf r) ++ " " ++ http.Proto r
  ++ dquote ++ " " ++ Itoa (StatusCode resp) ++ " " ++ Itoa (ContentLength resp).

(** The order of the specification on builds: by creation timestamp,
    then by identifier. *)
Definition id_le (a b : string) : Prop := String_as_OT.compare a b <> Gt.

Definition key_le (a b : Model.Build) : Prop :=
  Model.Created a < Model.Created b
  \/ (Model.Created a = Model.Created b /\ id_le (Model.BuildID a) (Model.BuildID b)).


End Props.

(* ===================================================================== *)
(** * Further vocabulary: routes, sequences of requests, command lines *)
(* ===================================================================== *)

Module More.
Import GoStrings restful Main.

(** The names of the variables of a route path: its [{name}] tokens
    without the braces, as [extractParameters] names them. *)
Definition pathVariables (path : string) : list string :=
  map (fun t => TrimRight (TrimLeft t "{") "}")
    (List.filter (String.prefix "{") (tokenizePath path)).

(** Two token patterns overlap when some request could match both: same
    length and, position by position, a variable on either side or the
    same literal. *)
Fixpoint overlap (p q : list string) : bool :=
  match p, q with
  | [], [] => true
  | a :: p', b :: q' =>
      (String.prefix "{" a || String.prefix "{" b || String.eqb a b) && overlap p' q'
  | _, _ => false
  end.

(** No pattern of the list overlaps a later one. *)
Fixpoint pairwise_disjoint (ps : list (list string)) : bool :=
  match ps with
  | [] => true
  | p :: rest => forallb (fun q => negb (overlap p q)) rest && pairwise_disjoint rest
  end.

(** The four web services that [main.go] declares itself. *)
Definition declaredServices (api_Healthz : RouteFunction) (server : api.API) : list WebService :=
  [ jobService_WebService (mkJobService server);
    buildService_WebService (mkBuildService server);
    projectService_WebService (mkProjectService server);
    healthService_WebService api_Healthz mkHealthService ].

(** What the declaration of a route documents: its parameters are the
    variables of its path, each of data type string; its responses are
    200 and 404; it has a description and one list of tags. *)
Definition wellDocumented (r : Route) : Prop :=
  Method r = "GET"
  /\ map (fun p => fst (fst p)) (ParameterDocs r) = pathVariables (Path r)
  /\ Forall (fun p => snd p = "string") (ParameterDocs r)
  /\ ResponseErrors r = [(200, "OK"); (404, "Not Found")]
  /\ Doc r <> ""
  /\ map fst (Metadata r) = [restfulspec.KeyOpenAPITags].

(** The routes of a container whose path pattern and whose method both
    match a request: the candidates of the router before it looks at
    [Content-Type] and [Accept]. *)
Definition matchingRoutes (c : Container) (r : http.Request) : list (WebService * Route) :=
  List.filter (fun wr : WebService * Route => String.eqb (Method (snd wr)) (http.Method r))
    (List.filter
       (fun wr : WebService * Route =>
          matchesTokens (tokenizePath (Path (snd wr)))
            (tokenizePath (http.Path (http.URLOf r))))
       (allRoutes (webServices c))).

(** A request arrives: its response has nothing written to it, and the
    clock shows what [time.Now()] returns when the line of this request
    is printed; the access log and the record of reached handlers go
    on. *)
Definition arrival (now : time.Time) (w : World) : World :=
  mkWorld NewResponse (accessLog w) now (reached w).

(** One request served, with the time the logger reads for it. *)
Definition serve (c : Container) (tr : time.Time * http.Request) (w : World) : World :=
  dispatch c (snd tr) (arrival (fst tr) w).

(** Requests served one after the other, each at its own time. *)
Definition dispatchAll (c : Container) (rs : list (time.Time * http.Request)) (w : World)
  : World :=
  fold_left (fun w tr => serve c tr w) rs w.

(** The state of the server after each request of such a sequence. *)
Fixpoint worldsAfter (c : Container) (rs : list (time.Time * http.Request)) (w : World)
  : list World :=
  match rs with
  | [] => []
  | tr :: rs' => serve c tr w :: worldsAfter c rs' (serve c tr w)
  end.

(** The names of the four flags of [init]. *)
Definition flagNames : list string := ["kubeconfig"; "master"; "namespace"; "api-port"].

(** A command line of flags, each followed by its value. *)
Definition flagArgs (pairs : list (string * string)) : list string :=
  flat_map (fun p => [String "-" (fst p); snd p]) pairs.

(** The value of the last pair under [name], [d] without one. *)
Definition lastValue (name : string) (pairs : list (string * string)) (d : string) : string :=
  fold_left (fun acc p => if String.eqb (fst p) name then snd p else acc) pairs d.

(** A calendar reading within the ranges of its fields. *)
Definition validTime (t : time.Time) : Prop :=
  0 <= time.Year t <= 9999
  /\ 1 <= time.Day t <= 31
  /\ 0 <= time.Hour t <= 23
  /\ 0 <= time.Minute t <= 59
  /\ 0 <= time.Second t <= 59
  /\ -86400 < time.ZoneOffset t < 86400.

End More.

(* ===================================================================== *)
(** * [vendor/github.com/gdamore/tcell/tscreen_darwin.go] *)
(* ===================================================================== *)

(** The terminal set-up of tcell on Darwin: [termioInit] opens the
    terminal twice, saves its settings and switches it to raw mode,
    [termioFini] puts the saved settings back, [getWinSize] asks for
    the size of the window.  System calls act on an explicit operating
    system state; which of them fail is given by a [Faults] record. *)

Module tcell.

(** The constants of Go's [syscall] package the file names; their
    values are taken as given. *)
Record Consts : Type := mkConsts {
  IGNBRK : Z; BRKINT : Z; PARMRK : Z; ISTRIP : Z;
  INLCR : Z; IGNCR : Z; ICRNL : Z; IXON : Z;
  OPOST : Z;
  ECHO : Z; ECHONL : Z; ICANON : Z; ISIG : Z; IEXTEN : Z;
  CSIZE : Z; PARENB : Z; CS8 : Z
}.

(** [syscall.Termios], the type under [termiosPrivate]. *)
Record termiosPrivate : Type := mkTermios {
  Iflag : Z;
  Oflag : Z;
  Cflag : Z;
  Lflag : Z;
  Cc : list Z;
  Ispeed : Z;
  Ospeed : Z
}.

Definition zeroTermios : termiosPrivate := mkTermios 0 0 0 0 [] 0 0.

(** Go's [error] values the file handles: what [os.OpenFile] reports
    and the [syscall.Errno] of a failed system call. *)
Inductive error : Type :=
| PathError (reason : string)
| Errno (e : Z).

(** The operating system as the file sees it: the settings and the
    window size of the terminal, the descriptors that are open, the
    next descriptor to hand out, and whether SIGWINCH is relayed. *)
Record OS : Type := mkOS {
  ttyTermios : termiosPrivate;
  ttyWinsize : list Z;
  openFds : gset nat;
  nextFd : nat;
  sigwinchNotified : bool
}.

(** Which calls fail: an error for each [os.OpenFile], an errno for each
    [ioctl], [0] for success. *)
Record Faults : Type := mkFaults {
  openInFails : option error;
  openOutFails : option error;
  getattrErrno : Z;
  setattrErrno : Z;
  winsizeErrno : Z;
  restoreErrno : Z
}.

(** The fields of [tScreen] the file uses: the saved settings, the two
    files, both nil at first, and the size of the cell buffer. *)
Record tScreen : Type := mktScreen {
  tiosp : option termiosPrivate;
  in_ : option nat;
  out : option nat;
  cells : Z * Z
}.

(** [os.OpenFile] on the terminal: a fresh descriptor, or the error. *)
Definition OpenFile (fails : option error) (os : OS) : option nat * option error * OS :=
  match fails with
  | Some e => (None, Some e, os)
  | None =>
      (Some (nextFd os), None,
       mkOS (ttyTermios os) (ttyWinsize os) ({[nextFd os]} ∪ openFds os) (S (nextFd os))
         (sigwinchNotified os))
  end.

(** [f.Close()]. *)
Definition Close (fd : nat) (os : OS) : OS :=
  mkOS (ttyTermios os) (ttyWinsize os) (openFds os ∖ {[fd]}) (nextFd os) (sigwinchNotified os).

Definition closeIfOpen (f : option nat) (os : OS) : OS :=
  match f with
  | Some fd => Close fd os
  | None => os
  end.

(** The [TIOCSETA] and [TIOCSETAF] requests: the terminal takes the
    settings unless the call fails. *)
Definition setattr (errno : Z) (tios : termiosPrivate) (os : OS) : OS :=
  if errno =? 0
  then mkOS tios (ttyWinsize os) (openFds os) (nextFd os) (sigwinchNotified os)
  else os.

Definition Notify (on : bool) (os : OS) : OS :=
  mkOS (ttyTermios os) (ttyWinsize os) (openFds os) (nextFd os) on.

(** The raw-mode settings [termioInit] computes from the saved ones;
    [x &^ m] is [Z.ldiff x m]. *)
Definition rawMode (k : Consts) (tios : termiosPrivate) : termiosPrivate :=
  let iflag :=
    Z.ldiff (Iflag tios)
      (Z.lor (IGNBRK k) (Z.lor (BRKINT k) (Z.lor (PARMRK k) (Z.lor (ISTRIP k)
         (Z.lor (INLCR k) (Z.lor (IGNCR k) (Z.lor (ICRNL k) (IXON k)))))))) in
  let oflag := Z.ldiff (Oflag tios) (OPOST k) in
  let lflag :=
    Z.ldiff (Lflag tios)
      (Z.lor (ECHO k) (Z.lor (ECHONL k) (Z.lor (ICANON k) (Z.lor (ISIG k) (IEXTEN k))))) in
  let cflag := Z.ldiff (Cflag tios) (Z.lor (CSIZE k) (PARENB k)) in
  let cflag := Z.lor cflag (CS8 k) in
  mkTermios iflag oflag cflag lflag (Cc tios) (Ispeed tios) (Ospeed tios).

(** [t.getWinSize()]: columns and rows, in this order, from the second
    and the first entry of what the terminal reports; [-1], [-1] and
    the errno when the call fails. *)
Definition getWinSize (fl : Faults) (os : OS) (t : tScreen) : Z * Z * option error :=
  if negb (winsizeErrno fl =? 0) then (-1, -1, Some (Errno (winsizeErrno fl)))
  else
    let dim := ttyWinsize os in
    (nth 1 dim 0, nth 0 dim 0, None).

(** The label [failed] of [termioInit]: close what is open, return the
    error. *)
Definition failed (e : error) (os : OS) (t : tScreen) : option error * OS * tScreen :=
  let os := closeIfOpen (in_ t) os in
  let os := closeIfOpen (out t) os in
  (Some e, os, t).

Definition termioInit (k : Consts) (fl : Faults) (os : OS) (t : tScreen)
  : option error * OS * tScreen :=
  let t := mktScreen (Some zeroTermios) (in_ t) (out t) (cells t) in
  let '(f, e, os) := OpenFile (openInFails fl) os in
  let t := mktScreen (tiosp t) f (out t) (cells t) in
  match e with
  | Some e => failed e os t
  | None =>
      let '(f, e, os) := OpenFile (openOutFails fl) os in
      let t := mktScreen (tiosp t) (in_ t) f (cells t) in
      match e with
      | Some e => failed e os t
      | None =>
          if negb (getattrErrno fl =? 0) then failed (Errno (getattrErrno fl)) os t
          else
            let t := mktScreen (Some (ttyTermios os)) (in_ t) (out t) (cells t) in
            let newtios := rawMode k (ttyTermios os) in
            if negb (setattrErrno fl =? 0) then failed (Errno (setattrErrno fl)) os t
            else
              let os := setattr 0 newtios os in
              let os := Notify true os in
              let '(w, h, e) := getWinSize fl os t in
              let t :=
                match e with
                | None =>
                    if negb (w =? 0) && negb (h =? 0)
                    then mktScreen (tiosp t) (in_ t) (out t) (w, h)
                    else t
                | Some _ => t
                end in
              (None, os, t)
      end
  end.

(** [termioFini], up to the goroutine it starts: the descriptors that
    goroutine will close are returned beside the state.  The wait on
    the channel [indoneq] changes nothing here. *)
Definition termioFini (fl : Faults) (os : OS) (t : tScreen) : OS * list nat :=
  let os := Notify false os in
  let os :=
    match out t with
    | Some fd =>
        let os :=
          match tiosp t with
          | Some tios => setattr (restoreErrno fl) tios os
          | None => os
          end in
        Close fd os
    | None => os
    end in
  (os, match in_ t with Some fd => [fd] | None => [] end).

(** The goroutine of [termioFini], once it has run. *)
Definition runBackground (pending : list nat) (os : OS) : OS :=
  fold_left (fun os fd => Close fd os) pending os.

(** The first call of [termioInit] that fails, if any; a failing window
    size request is none of them. *)
Definition firstFault (fl : Faults) : option error :=
  match openInFails fl with
  | Some e => Some e
  | None =>
      match openOutFails fl with
      | Some e => Some e
      | None =>
          if negb (getattrErrno fl =? 0) then Some (Errno (getattrErrno fl))
          else if negb (setattrErrno fl =? 0) then Some (Errno (setattrErrno fl))
          else None
      end
  end.

(** Descriptors are handed out in increasing order. *)
Definition wellFormed (os : OS) : Prop :=
  forall fd, fd ∈ openFds os -> (fd < nextFd os)%nat.

(** A screen that was never initialised. *)
Definition freshScreen (t : tScreen) : Prop :=
  in_ t = None /\ out t = None.

Definition iflagMask (k : Consts) : Z :=
  Z.lor (IGNBRK k) (Z.lor (BRKINT k) (Z.lor (PARMRK k) (Z.lor (ISTRIP k)
    (Z.lor (INLCR k) (Z.lor (IGNCR k) (Z.lor (ICRNL k) (IXON k))))))).

Definition lflagMask (k : Consts) : Z :=
  Z.lor (ECHO k) (Z.lor (ECHONL k) (Z.lor (ICANON k) (Z.lor (ISIG k) (IEXTEN k)))).

(** The values of the constants on Darwin, for examples. *)
Definition darwin : Consts :=
  mkConsts 1 2 8 32 64 128 256 512 1 8 16 256 128 1024 768 4096 768.

End tcell.

(* ===================================================================== *)
(** * Strings *)
(* ===================================================================== *)

Section StringFacts.
Import GoStrings Props.

Lemma append_nil_r (s : string) : s ++ "" = s.
Proof. induction s as [|a s IH]; simpl; [reflexivity | now rewrite IH]. Qed.

Lemma append_assoc (a b c : string) : (a ++ b) ++ c = a ++ (b ++ c).
Proof. induction a as [|x a IH]; simpl; [reflexivity | now rewrite IH]. Qed.

Lemma Split_from_nonempty (s cur : string) (sep : ascii) :
  exists h t, Split_from cur s sep = h :: t.
Proof.
  revert cur; induction s as [|a s IH]; intros cur; simpl.
  - eauto.
  - destruct (Ascii.eqb a sep); eauto.
Qed.

(** The first piece of a split is what precedes the first separator. *)
Lemma Split_from_head (s cur : string) (sep : ascii) :
  head (Split_from cur s sep) = Some (cur ++ before_first sep s).
Proof.
  revert cur; induction s as [|a s IH]; intros cur; simpl.
  - now rewrite append_nil_r.
  - destruct (Ascii.eqb a sep); simpl.
    + now rewrite append_nil_r.
    + rewrite IH, append_assoc. reflexivity.
Qed.

Lemma Split_index0 (s : string) (sep : ascii) :
  index0 (Split s sep) = Some (before_first sep s).
Proof. unfold index0, Split. now rewrite Split_from_head. Qed.

(** A string without the separator is a single piece. *)
Lemma Split_from_no_sep (s cur : string) (sep : ascii) :
  has_byte sep s = false -> Split_from cur s sep = [cur ++ s].
Proof.
  revert cur; induction s as [|a s IH]; intros cur H; simpl in *.
  - now rewrite append_nil_r.
  - apply orb_false_iff in H as [Ha Hs]. rewrite Ha, IH by assumption.
    now rewrite append_assoc.
Qed.

Lemma Split_from_app (s rest cur : string) (sep : ascii) :
  has_byte sep s = false ->
  Split_from cur (s ++ String sep rest) sep = (cur ++ s) :: Split_from "" rest sep.
Proof.
  revert cur; induction s as [|a s IH]; intros cur H; simpl in *.
  - now rewrite Ascii.eqb_refl, append_nil_r.
  - apply orb_false_iff in H as [Ha Hs]. rewrite Ha, IH by assumption.
    now rewrite append_assoc.
Qed.

(** [before_first] cuts [s] at its first [c]. *)
Lemma before_first_spec (c : ascii) (s : string) :
  has_byte c (before_first c s) = false
  /\ (s = before_first c s
      \/ exists rest, s = before_first c s ++ String c rest).
Proof.
  induction s as [|a s [IH1 IH2]]; simpl.
  - auto.
  - destruct (Ascii.eqb a c) eqn:E; simpl.
    + apply Ascii.eqb_eq in E; subst. split; [reflexivity | right; eauto].
    + rewrite E, IH1. split; [reflexivity |].
      destruct IH2 as [IH2 | [rest IH2]].
      * left. congruence.
      * right. exists rest. congruence.
Qed.

Lemma TrimRight_keeps (s t : string) (c : ascii) :
  TrimRight t c <> "" -> TrimRight (s ++ t) c = s ++ TrimRight t c.
Proof.
  intros H. induction s as [|a s IH]; simpl; [reflexivity |].
  rewrite IH. destruct (s ++ TrimRight t c) eqn:E; [| reflexivity].
  destruct s; simpl in E; [contradiction | discriminate].
Qed.

Lemma TrimRight_no_sep (s : string) (c : ascii) :
  has_byte c s = false -> TrimRight s c = s.
Proof.
  induction s as [|a s IH]; simpl; [reflexivity |].
  intros H. apply orb_false_iff in H as [Ha Hs]. rewrite IH by assumption.
  destruct s; [now rewrite Ha | reflexivity].
Qed.

Lemma TrimRight_segment (s id : string) :
  segment id -> TrimRight (s ++ id) "/" = s ++ id.
Proof.
  intros [Hne Hno]. rewrite TrimRight_keeps; rewrite TrimRight_no_sep by assumption;
    [reflexivity | assumption].
Qed.

End StringFacts.

(* ===================================================================== *)
(** * The access log *)
(* ===================================================================== *)

Section AccessLog.
Import GoStrings restful Props Main.

(** The format of the filter, applied to six strings and two ints. *)
Lemma Sprintf_logFormat (host user stamp method uri proto : string) (status len : Z) :
  Sprintf logFormat
    [AStr host; AStr user; AStr stamp; AStr method; AStr uri; AStr proto;
     AInt status; AInt len]
  = host ++ " - " ++ user ++ " [" ++ stamp ++ "] " ++ dquote ++ method ++ " " ++ uri
    ++ " " ++ proto ++ dquote ++ " " ++ Itoa status ++ " " ++ Itoa len.
Proof.
  unfold logFormat, dquote. simpl. now rewrite append_nil_r.
Qed.

Lemma remoteHostOf_before_colon (req : Request) :
  remoteHostOf req = before_first ":" (http.RemoteAddr (RequestOf req)).
Proof. unfold remoteHostOf. now rewrite Split_index0. Qed.

Lemma usernameOf_cases (req : Request) :
  usernameOf req
  = match http.User (http.URLOf (RequestOf req)) with
    | None => "-"
    | Some u => if String.eqb (http.Username u) "" then "-" else http.Username u
    end.
Proof.
  unfold usernameOf. destruct (http.User _) as [u|]; [| reflexivity].
  now destruct (String.eqb (http.Username u) "").
Qed.

(** The filter runs the rest of the chain, then prints one line from
    the world the chain left. *)
Lemma logger_after_chain (req : Request) (w : World) (chain : Chain) :
  nCSACommonLogFormatLogger req w chain
  = let w' := chain req w in
    mkWorld (response w')
      (accessLog w' ++ [logLine (RequestOf req) (clock w') (response w')])%list
      (clock w') (reached w').
Proof.
  unfold nCSACommonLogFormatLogger, logger_Printf. cbv zeta.
  rewrite Sprintf_logFormat, remoteHostOf_before_colon, usernameOf_cases.
  reflexivity.
Qed.

End AccessLog.

(* ===================================================================== *)
(** * The filter chain of [main] *)
(* ===================================================================== *)

Section FilterChain.
Import GoStrings restful Props Main.

Variable api_Healthz : RouteFunction.
Variable getSwagger : restfulspec.Config -> RouteFunction.
Variable server : api.API.

Local Abbreviation c := (main_container api_Healthz getSwagger server).

(** The container filters, in the order [main] registers them. *)
Lemma main_containerFilters :
  containerFilters c = [nCSACommonLogFormatLogger; CORS_Filter cors].
Proof. reflexivity. Qed.

Lemma ProcessFilter_two (f g : FilterFunction) (Target : Chain) (req : Request) (w : World) :
  ProcessFilter [f; g] Target req w = f req w (fun r1 w1 => g r1 w1 Target).
Proof. reflexivity. Qed.

(** No web service and no route of [main] carries a filter of its own. *)
Lemma main_routes_unfiltered :
  Forall (fun wr : WebService * Route => filters (fst wr) = [] /\ Filters (snd wr) = [])
    (allRoutes (webServices c)).
Proof. set (l := allRoutes _). vm_compute in l. subst l. repeat constructor. Qed.

Lemma SelectRoute_In (wss : list WebService) (r : http.Request) (wr : WebService * Route) :
  SelectRoute wss r = inl wr -> In wr (allRoutes wss).
Proof.
  unfold SelectRoute.
  set (byPath := List.filter _ (allRoutes wss)).
  destruct byPath eqn:E; [discriminate |].
  destruct (List.filter _ (p :: l)) eqn:E2; [discriminate |].
  intros [= <-].
  assert (H : In p0 (List.filter
                       (fun wr0 => String.eqb (Method (snd wr0)) (http.Method r)) (p :: l)))
    by (rewrite E2; now left).
  apply filter_In in H as [H _]. rewrite <- E in H. subst byPath.
  now apply filter_In in H as [H _].
Qed.

Lemma wrapped_RequestOf (r : http.Request) : RequestOf (wrapped c r) = r.
Proof. unfold wrapped. now destruct (SelectRoute _ r) as [[ws route]|err]. Qed.

(** Every request, routed or not, goes through the access-log filter,
    then the CORS filter, then its target. *)
Lemma dispatch_main (r : http.Request) (w : World) :
  dispatch c r w
  = nCSACommonLogFormatLogger (wrapped c r) w
      (fun r1 w1 => CORS_Filter cors r1 w1 (target c r)).
Proof.
  unfold dispatch, wrapped, target.
  destruct (SelectRoute (webServices c) r) as [[ws route]|err] eqn:E.
  - apply SelectRoute_In in E.
    pose proof main_routes_unfiltered as HF.
    rewrite List.Forall_forall in HF. destruct (HF _ E) as [Hws Hroute]. simpl in Hws, Hroute.
    rewrite Hws, Hroute, main_containerFilters. reflexivity.
  - rewrite main_containerFilters. reflexivity.
Qed.

(** The CORS filter of [main]: a preflight is answered without the
    rest of the chain; a request without Origin passes unchanged; any
    other request gets the CORS headers and goes on. *)
Lemma cors_Filter_cases (req : Request) (w : World) (chain : Chain) :
  CORS_Filter cors req w chain
  = if is_preflight (RequestOf req)
    then with_response (doPreflightRequest cors req) w
    else if String.eqb (http.Header_Get (http.HeaderOf (RequestOf req)) HEADER_Origin) ""
         then chain req w
         else chain req (with_response (doActualRequest cors req) w).
Proof.
  unfold CORS_Filter, is_preflight, isOriginAllowed.
  destruct (http.Header_Get _ HEADER_Origin) as [|a origin]; simpl.
  - now rewrite andb_false_r.
  - rewrite andb_true_r.
    destruct (String.eqb (http.Method (RequestOf req)) "OPTIONS"); simpl; [| reflexivity].
    now destruct (String.eqb (http.Header_Get _ HEADER_AccessControlRequestMethod) "").
Qed.

Lemma quiet_target (r : http.Request) : quiet (target c r).
Proof.
  unfold quiet, target. intros r0 w.
  now destruct (SelectRoute (webServices c) r) as [[ws route]|err].
Qed.

Lemma quiet_cors (chain : Chain) :
  quiet chain -> quiet (fun r1 w1 => CORS_Filter cors r1 w1 chain).
Proof.
  intros H r w. rewrite cors_Filter_cases.
  destruct (is_preflight _); [now split |].
  destruct (String.eqb _ ""); [apply H |].
  destruct (H r (with_response (doActualRequest cors r) w)) as [H1 H2].
  now rewrite H1, H2.
Qed.

End FilterChain.

(* ===================================================================== *)
(** * The route table of [main] *)
(* ===================================================================== *)

Import GoStrings restful Props Main.


Section Options.
Variable api_Healthz : RouteFunction.
Variable getSwagger : restfulspec.Config -> RouteFunction.
Variable server : api.API.

Local Abbreviation c := (main_container api_Healthz getSwagger server).

(** Every route of [main] is a GET route. *)
Lemma main_routes_all_GET :
  Forall (fun wr : WebService * Route => Method (snd wr) = "GET") (allRoutes (webServices c)).
Proof. set (l := allRoutes _). vm_compute in l. subst l. repeat constructor. Qed.

Lemma filter_method_none (m : string) (l : list (WebService * Route)) :
  m <> "GET" ->
  Forall (fun wr : WebService * Route => Method (snd wr) = "GET") l ->
  List.filter (fun wr => String.eqb (Method (snd wr)) m) l = [].
Proof.
  intros Hm. induction 1 as [|wr l Hwr _ IH]; [reflexivity |].
  cbn. rewrite Hwr, IH. destruct (String.eqb_spec "GET" m); [congruence | reflexivity].
Qed.

(** A request under any method but GET selects no route. *)
Lemma not_GET_selects_no_route (r : http.Request) :
  http.Method r <> "GET" -> exists err, SelectRoute (webServices c) r = inr err.
Proof.
  intros Hm. unfold SelectRoute.
  set (byPath := List.filter _ (allRoutes (webServices c))).
  assert (HF : Forall (fun wr : WebService * Route => Method (snd wr) = "GET") byPath).
  { apply List.Forall_forall. intros wr Hwr. apply filter_In in Hwr as [Hwr _].
    pose proof main_routes_all_GET as HG. rewrite List.Forall_forall in HG. auto. }
  destruct byPath as [|wr0 l0]; [eauto |].
  rewrite (filter_method_none _ _ Hm HF). eauto.
Qed.

(** No OPTIONS request, preflight or not, reaches a handler. *)
Lemma options_reaches_no_handler (r : http.Request) (w : World) :
  http.Method r = "OPTIONS" -> reached (dispatch c r w) = reached w.
Proof.
  intros Hm. rewrite dispatch_main, logger_after_chain, cors_Filter_cases.
  assert (Ht : forall r0 w0, reached (target c r r0 w0) = reached w0).
  { intros r0 w0. unfold target.
    destruct (not_GET_selects_no_route r) as [err ->]; [rewrite Hm; discriminate |].
    reflexivity. }
  generalize dependent (target c r). intros t Ht.
  generalize (wrapped c r). intros req.
  destruct (is_preflight _); [reflexivity |].
  destruct (String.eqb _ ""); cbn; now rewrite Ht.
Qed.
End Options.



Section RouteTokens.

Lemma TrimRight_keeps_cons (s t : string) (x c : ascii) :
  TrimRight t c <> "" -> TrimRight (s ++ String x t) c = s ++ String x (TrimRight t c).
Proof.
  intros H. change (String x t) with (String x "" ++ t).
  rewrite <- append_assoc, TrimRight_keeps by assumption.
  now rewrite append_assoc.
Qed.

Lemma TrimRight_segment_id (id : string) :
  segment id -> TrimRight id "/" = id /\ TrimRight id "/" <> "".
Proof.
  intros [Hne Hno]. rewrite TrimRight_no_sep by assumption. now split.
Qed.

Lemma tokenizePath_slash (s : string) (x : ascii) :
  Ascii.eqb x "/" = false ->
  tokenizePath (String "/" (String x s)) = Split (TrimRight (String x s) "/") "/".
Proof.
  intros Hx. unfold tokenizePath, Trim. cbn [String.eqb TrimLeft].
  replace (Ascii.eqb "/" "/") with true by reflexivity. cbn [String.eqb].
  now rewrite Hx.
Qed.

(** [/a/b/id] *)
Lemma tokenizePath_3 (a b id : string) :
  a <> "" -> has_byte "/" a = false -> has_byte "/" b = false -> segment id ->
  tokenizePath (String "/" (a ++ String "/" (b ++ String "/" id))) = [a; b; id].
Proof.
  intros Ha Hna Hnb Hid. destruct (TrimRight_segment_id id Hid) as [Hid1 Hid2].
  destruct a as [|x a]; [contradiction |].
  pose proof Hna as Hna'. cbn in Hna'. apply orb_false_iff in Hna' as [Hx _].
  cbn [append]. rewrite tokenizePath_slash by assumption.
  change (String x (a ++ String "/" (b ++ String "/" id)))
    with (String x a ++ String "/" (b ++ String "/" id)).
  assert (Hb : TrimRight (b ++ String "/" id) "/" = b ++ String "/" id)
    by (rewrite TrimRight_keeps_cons, Hid1; [reflexivity | assumption]).
  rewrite TrimRight_keeps_cons, Hb by (rewrite Hb; now destruct b).
  unfold Split. rewrite !Split_from_app by assumption.
  rewrite Split_from_no_sep by apply Hid. reflexivity.
Qed.

(** [/a/b/id/d] *)
Lemma tokenizePath_4 (a b id d : string) :
  a <> "" -> has_byte "/" a = false -> has_byte "/" b = false -> segment id -> segment d ->
  tokenizePath (String "/" (a ++ String "/" (b ++ String "/" (id ++ String "/" d))))
  = [a; b; id; d].
Proof.
  intros Ha Hna Hnb Hid Hd. destruct (TrimRight_segment_id d Hd) as [Hd1 Hd2].
  destruct a as [|x a]; [contradiction |].
  pose proof Hna as Hna'. cbn in Hna'. apply orb_false_iff in Hna' as [Hx _].
  cbn [append]. rewrite tokenizePath_slash by assumption.
  change (String x (a ++ String "/" (b ++ String "/" (id ++ String "/" d))))
    with (String x a ++ String "/" (b ++ String "/" (id ++ String "/" d))).
  assert (Hd3 : TrimRight (id ++ String "/" d) "/" = id ++ String "/" d)
    by (rewrite TrimRight_keeps_cons, Hd1; [reflexivity | assumption]).
  assert (Hd4 : TrimRight (b ++ String "/" (id ++ String "/" d)) "/"
                = b ++ String "/" (id ++ String "/" d)).
  { rewrite TrimRight_keeps_cons, Hd3; [reflexivity |]. rewrite Hd3. now destruct id. }
  rewrite TrimRight_keeps_cons, Hd4 by (rewrite Hd4; now destruct b).
  unfold Split. rewrite !Split_from_app by (assumption || apply Hid).
  rewrite Split_from_no_sep by apply Hd. reflexivity.
Qed.
End RouteTokens.

Section Registry.
Variable api_Healthz : RouteFunction.
Variable getSwagger : restfulspec.Config -> RouteFunction.
Variable server : api.API.

(** The route table of the container, in registration order. *)
Lemma main_route_table :
  map (fun wr : WebService * Route =>
         (Method (snd wr), Path (snd wr), op (Function (snd wr))))
    (allRoutes (webServices (main_container api_Healthz getSwagger server)))
  = [ ("GET", "/v1/job/{id}", JobGet);
      ("GET", "/v1/job/{id}/logs", JobLogs);
      ("GET", "/v1/build/{id}", BuildGet);
      ("GET", "/v1/build/{id}/jobs", BuildJobs);
      ("GET", "/v1/build/{id}/logs", BuildLogs);
      ("GET", "/v1/projects", ProjectList);
      ("GET", "/v1/project/{id}", ProjectGet);
      ("GET", "/v1/project/{id}/builds", ProjectBuilds);
      ("GET", "/v1/projects-build", ProjectListWithLatestBuild);
      ("GET", "/healthz/", HealthCheck);
      ("GET", "/apidocs.json/", OpenAPIDoc) ].
Proof. vm_compute. reflexivity. Qed.

(** Selection only looks at the method and at the tokens of the path. *)
Lemma selected_by_tokens (m path : string) (u : option http.Userinfo) (uri proto : string)
    (hdr : http.Header) (remote : string) (tokens : list string) (h : Handler) :
  tokenizePath path = tokens ->
  (let requestTokens := tokens in
   let byPath :=
     List.filter (fun wr => matchesTokens (tokenizePath (Path (snd wr))) requestTokens)
       (allRoutes (webServices (main_container api_Healthz getSwagger server))) in
   match List.filter (fun wr => String.eqb (Method (snd wr)) m) byPath with
   | wr :: _ => Some (Function (snd wr))
   | [] => None
   end) = Some h ->
  selected (main_container api_Healthz getSwagger server)
    (http.mkRequest m (http.mkURL path u uri) proto hdr remote) = Some h.
Proof.
  intros <- H. unfold selected, SelectRoute. cbn [http.Path http.URLOf http.Method].
  cbv zeta in H.
  destruct (List.filter _ (allRoutes _)) as [|wr0 l0]; [discriminate |].
  destruct (List.filter _ (wr0 :: l0)) as [|[ws route] l1]; [discriminate |].
  exact H.
Qed.
End Registry.

Ltac route_tokens lem :=
  eapply selected_by_tokens;
  [ apply lem; (reflexivity || discriminate || assumption || (split; [discriminate | reflexivity]))
  | vm_compute; reflexivity ].


(* ===================================================================== *)
(** * The order on builds *)
(* ===================================================================== *)


Section BuildOrder.
Import Model.

Lemma id_le_refl (x : string) : id_le x x.
Proof.
  unfold id_le. destruct (String_as_OT.compare_spec x x) as [_|H|H]; try discriminate.
  exfalso. exact (StrictOrder_Irreflexive x H).
Qed.

Lemma id_le_cases (x y : string) : id_le x y <-> x = y \/ String_as_OT.lt x y.
Proof.
  unfold id_le. split.
  - destruct (String_as_OT.compare_spec x y) as [H|H|H]; auto. intros C. now contradiction C.
  - intros [-> | H]; [apply id_le_refl |]. unfold String_as_OT.lt in H. now rewrite H.
Qed.

Lemma id_le_trans (x y z : string) : id_le x y -> id_le y z -> id_le x z.
Proof.
  intros H1 H2. apply id_le_cases in H1, H2. apply id_le_cases.
  destruct H1 as [-> | H1], H2 as [-> | H2]; auto.
  right. exact (StrictOrder_Transitive x y z H1 H2).
Qed.

Lemma id_le_antisym (x y : string) : id_le x y -> id_le y x -> x = y.
Proof.
  intros H1 H2. apply id_le_cases in H1, H2.
  destruct H1 as [-> | H1], H2 as [H2 | H2]; auto.
  exfalso. exact (StrictOrder_Irreflexive x (StrictOrder_Transitive x y x H1 H2)).
Qed.

Lemma id_ltb_false (x y : string) : id_ltb x y = false -> id_le y x.
Proof.
  unfold id_ltb. rewrite id_le_cases.
  destruct (String_as_OT.compare_spec x y) as [H|H|H]; auto; discriminate.
Qed.

Lemma id_ltb_true (x y : string) : id_ltb x y = true -> id_le x y.
Proof.
  unfold id_ltb, id_le. destruct (String_as_OT.compare x y); discriminate || congruence.
Qed.

Lemma key_le_refl (a : Build) : key_le a a.
Proof. right. split; [reflexivity | apply id_le_refl]. Qed.

Lemma key_le_trans (a b c : Build) : key_le a b -> key_le b c -> key_le a c.
Proof.
  unfold key_le. intros [H1 | [H1 I1]] [H2 | [H2 I2]]; try (left; lia).
  right. split; [lia | eapply id_le_trans; eassumption].
Qed.

Lemma key_le_antisym (a b : Build) :
  key_le a b -> key_le b a -> Created a = Created b /\ BuildID a = BuildID b.
Proof.
  unfold key_le. intros [H1 | [H1 I1]] [H2 | [H2 I2]]; try lia.
  split; [assumption | now apply id_le_antisym].
Qed.

Lemma later_true (a b : Build) : later a b = true -> key_le a b.
Proof.
  unfold later, key_le. intros H. apply orb_true_iff in H as [H | H].
  - left. lia.
  - apply andb_true_iff in H as [H1 H2]. right. split; [lia | now apply id_ltb_true].
Qed.

Lemma later_false (a b : Build) : later a b = false -> key_le b a.
Proof.
  unfold later, key_le. intros H. apply orb_false_iff in H as [H1 H2].
  destruct (Z.eq_dec (Created a) (Created b)) as [E | E].
  - right. split; [lia |]. apply id_ltb_false.
    apply andb_false_iff in H2 as [H2 | H2]; [lia | assumption].
  - left. lia.
Qed.

(** The fold keeps a build of the list, or the starting one, that is
    maximal among all of them. *)
Lemma fold_pick_max (builds : list Build) (a : Build) :
  let m := fold_left pick builds (Some a) in
  exists b, m = Some b
            /\ (b = a \/ In b builds)
            /\ key_le a b
            /\ forall b', In b' builds -> key_le b' b.
Proof.
  revert a. induction builds as [|x builds IH]; intros a; cbn.
  - exists a. repeat split; auto using key_le_refl. intros b' [].
  - destruct (later a x) eqn:E.
    + destruct (IH x) as (b & Hm & Hin & Hle & Hall). exists b.
      split; [assumption |]. split; [right; destruct Hin; auto |].
      split; [eapply key_le_trans; [apply later_true; eassumption | assumption] |].
      intros b' [<- | Hb']; auto.
    + destruct (IH a) as (b & Hm & Hin & Hle & Hall). exists b.
      split; [assumption |]. split; [destruct Hin; auto |].
      split; [assumption |].
      intros b' [<- | Hb']; auto.
      eapply key_le_trans; [apply later_false; eassumption | assumption].
Qed.

Lemma latest_spec (builds : list Build) :
  match builds with
  | [] => latest builds = None
  | _ :: _ =>
      exists b, latest builds = Some b
                /\ In b builds
                /\ forall b', In b' builds -> key_le b' b
  end.
Proof.
  destruct builds as [|x builds]; [reflexivity |].
  unfold latest. cbn. destruct (fold_pick_max builds x) as (b & Hm & Hin & Hle & Hall).
  exists b. split; [assumption |]. split; [destruct Hin; subst; auto |].
  intros b' [<- | Hb']; auto.
Qed.
End BuildOrder.

(* ===================================================================== *)
(** * Properties of the access log and of the filter chain *)
(* ===================================================================== *)


(** C5.  Every request dispatched by the container of [main] adds
    exactly one line to the access log; the line carries the remote
    host, the username or its placeholder, the time in the layout
    [02/Jan/2006:15:04:05 -0700], the method, the request URI, the
    protocol, and the status code and content length of the response as
    the request left it.  The filter prints it after the rest of the
    chain has run, whatever that chain did to the response. *)
Theorem access_log_one_line_per_request
    (api_Healthz : RouteFunction) (getSwagger : restfulspec.Config -> RouteFunction)
    (server : api.API) (r : http.Request) (w : World) :
  let c := main_container api_Healthz getSwagger server in
  let w' := dispatch c r w in
  accessLog w' = (accessLog w ++ [logLine r (clock w') (response w')])%list
  /\ forall (req : Request) (w0 : World) (chain : Chain),
       let w1 := chain req w0 in
       let w2 := nCSACommonLogFormatLogger req w0 chain in
       accessLog w2 = (accessLog w1 ++ [logLine (RequestOf req) (clock w1) (response w1)])%list
       /\ response w2 = response w1
       /\ reached w2 = reached w1.
Proof.
  intros c w'. subst w'. split.
  - destruct (quiet_cors (target c r) (quiet_target api_Healthz getSwagger server r)
                (wrapped c r) w) as [Hlog _].
    unfold c in *. rewrite dispatch_main, logger_after_chain, wrapped_RequestOf.
    revert Hlog.
    generalize (CORS_Filter cors (wrapped (main_container api_Healthz getSwagger server) r) w
                  (target (main_container api_Healthz getSwagger server) r)).
    intros w1 Hlog. cbn. now rewrite Hlog.
  - intros req w0 chain w1 w2. subst w1 w2. rewrite logger_after_chain.
    generalize (chain req w0). intros w1. cbn. auto.
Qed.

(** C9.  The remote-host field of the log line is the part of
    [RemoteAddr] before its first colon, so only the opening bracket
    for an IPv6 address such as the loopback with port 51234; the
    username field is [-] without userinfo or with an empty username,
    and the username otherwise. *)
Theorem log_remote_host_and_username (req : Request) (w : World) (chain : Chain) :
  let addr := http.RemoteAddr (RequestOf req) in
  let host := before_first ":" addr in
  let user := match http.User (http.URLOf (RequestOf req)) with
              | None => "-"
              | Some u => if String.eqb (http.Username u) "" then "-" else http.Username u
              end in
  remoteHostOf req = host
  /\ usernameOf req = user
  /\ (exists rest,
        last (accessLog (nCSACommonLogFormatLogger req w chain))
        = Some (host ++ " - " ++ user ++ " [" ++ rest))
  /\ has_byte ":" host = false
  /\ (addr = host \/ exists tail, addr = host ++ String ":" tail)
  /\ (forall m u p h params,
        remoteHostOf (mkRequest (http.mkRequest m u p h "[::1]:51234") params) = "[").
Proof.
  cbv zeta. repeat split.
  - apply remoteHostOf_before_colon.
  - apply usernameOf_cases.
  - rewrite logger_after_chain. generalize (chain req w). intros w1. cbn.
    rewrite last_snoc. unfold logLine. eexists. reflexivity.
  - apply before_first_spec.
  - apply before_first_spec.
Qed.

(** C4, as the code has it.  The access-log filter is the outermost
    interceptor and the CORS filter the innermost: [main] registers the
    logger first, so it receives every request first, runs the CORS
    filter and the target as the rest of its chain, and prints its line
    afterwards; the CORS filter, next to the target, answers a preflight
    without calling the target. *)
Theorem logger_outermost_cors_innermost
    (api_Healthz : RouteFunction) (getSwagger : restfulspec.Config -> RouteFunction)
    (server : api.API) :
  let fs := containerFilters (main_container api_Healthz getSwagger server) in
  fs = [nCSACommonLogFormatLogger; CORS_Filter cors]
  /\ wraps nCSACommonLogFormatLogger (CORS_Filter cors) fs
  /\ (forall req w chain,
        accessLog (nCSACommonLogFormatLogger req w chain)
        = (accessLog (chain req w)
           ++ [logLine (RequestOf req) (clock (chain req w)) (response (chain req w))])%list)
  /\ (forall req w chain,
        CORS_Filter cors req w chain
        = if is_preflight (RequestOf req)
          then with_response (doPreflightRequest cors req) w
          else if String.eqb (http.Header_Get (http.HeaderOf (RequestOf req)) HEADER_Origin) ""
               then chain req w
               else chain req (with_response (doActualRequest cors req) w)).
Proof.
  cbv zeta. split; [reflexivity |]. split; [| split].
  - intros Target req w. reflexivity.
  - intros req w chain. rewrite logger_after_chain.
    generalize (chain req w). intros w1. reflexivity.
  - intros req w chain. apply cors_Filter_cases.
Qed.

(** C4, as stated, fails: were the CORS filter outermost and the logger
    innermost, the preflight of the sample data would leave no line in
    the access log; the container of [main] logs it. *)
Lemma cors_outermost_refuted :
  ~ wraps (CORS_Filter cors) nCSACommonLogFormatLogger (containerFilters Demo.container).
Proof.
  intros H.
  specialize (H (target Demo.container Demo.preflight) (NewRequest Demo.preflight) Demo.world0).
  apply (f_equal accessLog) in H. vm_compute in H. discriminate H.
Qed.

(** C6.  Whatever a request selects, a resource route, the health
    check, the API description or no route at all, the container of
    [main] runs it through the access-log filter and the CORS filter;
    the health check and the API description are routes of that
    container. *)
Theorem filters_apply_to_every_route
    (api_Healthz : RouteFunction) (getSwagger : restfulspec.Config -> RouteFunction)
    (server : api.API) :
  let c := main_container api_Healthz getSwagger server in
  (forall (r : http.Request) (w : World),
      dispatch c r w
      = nCSACommonLogFormatLogger (wrapped c r) w
          (fun r1 w1 => CORS_Filter cors r1 w1 (target c r)))
  /\ Forall (fun wr : WebService * Route => filters (fst wr) = [] /\ Filters (snd wr) = [])
       (allRoutes (webServices c))
  /\ (forall u uri proto hdr remote,
        target c (http.mkRequest "GET" (http.mkURL "/healthz/" u uri) proto hdr remote)
        = callHandler (mkHandler HealthCheck api_Healthz))
  /\ (forall u uri proto hdr remote,
        option_map op
          (selected c (http.mkRequest "GET" (http.mkURL "/apidocs.json" u uri) proto hdr remote))
        = Some OpenAPIDoc).
Proof.
  cbv zeta. split; [| split; [| split]].
  - apply dispatch_main.
  - apply main_routes_unfiltered.
  - intros. vm_compute. reflexivity.
  - intros. vm_compute. reflexivity.
Qed.

(** C8.  A CORS preflight request, an OPTIONS request that carries an
    Origin and names the method it asks for, is answered by the CORS
    filter: no handler is reached and the response is the preflight
    answer, with the status and the body untouched.  No other OPTIONS
    request reaches a handler either, since every route is a GET
    route. *)
Theorem preflight_never_reaches_handler
    (api_Healthz : RouteFunction) (getSwagger : restfulspec.Config -> RouteFunction)
    (server : api.API) (r : http.Request) (w : World) :
  is_preflight r = true ->
  let c := main_container api_Healthz getSwagger server in
  let w' := dispatch c r w in
  reached w' = reached w
  /\ response w' = doPreflightRequest cors (wrapped c r) (response w)
  /\ statusCode (response w') = statusCode (response w)
  /\ contentLength (response w') = contentLength (response w)
  /\ (forall (r0 : http.Request) (w0 : World),
        http.Method r0 = "OPTIONS" -> reached (dispatch c r0 w0) = reached w0).
Proof.
  intros Hp c w'. subst w'. unfold c.
  split; [| split; [| split; [| split]]];
    try (intros r0 w0 Hm; now apply options_reaches_no_handler).
  all: rewrite dispatch_main, logger_after_chain, cors_Filter_cases, wrapped_RequestOf, Hp.
  all: generalize (wrapped (main_container api_Healthz getSwagger server) r); intros req.
  all: cbn; try reflexivity.
  all: unfold doPreflightRequest, setOptionsHeaders.
  all: destruct (negb _); [reflexivity |]; destruct (_ && _); [reflexivity |].
  all: destruct (isOriginAllowed _ _); reflexivity.
Qed.

Lemma preflight_never_reaches_handler_witness :
  is_preflight Demo.preflight = true
  /\ reached (dispatch Demo.container Demo.preflight Demo.world0) = [].
Proof.
  split; [reflexivity |].
  exact (proj1 (preflight_never_reaches_handler Demo.Healthz Demo.getSwagger Demo.server
                  Demo.preflight Demo.world0 eq_refl)).
Defined.

(** C7.  The route registry binds each method and path of the table to
    its handler operation: the two Job routes, the three Build routes,
    the four Project routes, the health check under [/healthz/], and
    the API description under [/apidocs.json], which describes the four
    web services registered before it. *)
Theorem route_registry_bindings
    (api_Healthz : RouteFunction) (getSwagger : restfulspec.Config -> RouteFunction)
    (server : api.API) (id : string)
    (u : option http.Userinfo) (uri proto : string) (hdr : http.Header) (remote : string) :
  segment id ->
  let c := main_container api_Healthz getSwagger server in
  let GET_ path := http.mkRequest "GET" (http.mkURL path u uri) proto hdr remote in
  selected c (GET_ ("/v1/job/" ++ id)) = Some (api.Job_Get (api.Job server))
  /\ selected c (GET_ ("/v1/job/" ++ id ++ "/logs")) = Some (api.Job_Logs (api.Job server))
  /\ selected c (GET_ ("/v1/build/" ++ id)) = Some (api.Build_Get (api.Build server))
  /\ selected c (GET_ ("/v1/build/" ++ id ++ "/jobs")) = Some (api.Build_Jobs (api.Build server))
  /\ selected c (GET_ ("/v1/build/" ++ id ++ "/logs")) = Some (api.Build_Logs (api.Build server))
  /\ selected c (GET_ "/v1/projects") = Some (api.Project_List (api.Project server))
  /\ selected c (GET_ ("/v1/project/" ++ id)) = Some (api.Project_Get (api.Project server))
  /\ selected c (GET_ ("/v1/project/" ++ id ++ "/builds"))
     = Some (api.Project_Builds (api.Project server))
  /\ selected c (GET_ "/v1/projects-build")
     = Some (api.Project_ListWithLatestBuild (api.Project server))
  /\ selected c (GET_ "/healthz/") = Some (mkHandler HealthCheck api_Healthz)
  /\ (exists config,
        selected c (GET_ "/apidocs.json") = Some (mkHandler OpenAPIDoc (getSwagger config))
        /\ restfulspec.APIPath config = "/apidocs.json"
        /\ restfulspec.WebServices config
           = [ jobService_WebService (mkJobService server);
               buildService_WebService (mkBuildService server);
               projectService_WebService (mkProjectService server);
               healthService_WebService api_Healthz mkHealthService ]).
Proof.
  intros Hid c GET_. subst c GET_.
  repeat match goal with |- _ /\ _ => split end.
  - route_tokens (tokenizePath_3 "v1" "job" id).
  - route_tokens (tokenizePath_4 "v1" "job" id "logs").
  - route_tokens (tokenizePath_3 "v1" "build" id).
  - route_tokens (tokenizePath_4 "v1" "build" id "jobs").
  - route_tokens (tokenizePath_4 "v1" "build" id "logs").
  - vm_compute. reflexivity.
  - route_tokens (tokenizePath_3 "v1" "project" id).
  - route_tokens (tokenizePath_4 "v1" "project" id "builds").
  - vm_compute. reflexivity.
  - vm_compute. reflexivity.
  - eexists. split; [vm_compute; reflexivity | split; reflexivity].
Qed.

Lemma route_registry_bindings_witness :
  segment "unknown"
  /\ selected Demo.container Demo.getUnknownJob = Some (api.Job_Get (api.Job Demo.server)).
Proof.
  assert (H : segment "unknown") by (split; [discriminate | reflexivity]).
  split; [exact H |].
  exact (proj1 (route_registry_bindings Demo.Healthz Demo.getSwagger Demo.server "unknown"
                  None "/v1/job/unknown" "HTTP/1.1" ∅ "10.0.0.7:4312" H)).
Defined.


(* ===================================================================== *)
(** * Bootstrap *)
(* ===================================================================== *)

(** C10.  The default namespace is the value of [BRIGADE_NAMESPACE] when
    it is set and [default] otherwise, the default API port the value of
    [BRIGADE_API_PORT] when set and [7745] otherwise; without flags the
    program runs on these defaults, and [-namespace] and [-api-port]
    replace them. *)
Theorem bootstrap_defaults_and_flags (env : os.Env) :
  defaultNamespace env = default "default" (env !! "BRIGADE_NAMESPACE")
  /\ defaultAPIPort env = default "7745" (env !! "BRIGADE_API_PORT")
  /\ namespace (init env) = defaultNamespace env
  /\ apiPort (init env) = defaultAPIPort env
  /\ flag.Parse (init env) [] = Some (init env)
  /\ forall ns port : string,
       (let parsed := flag.Parse (init env) ["-namespace"; ns] in
        namespace <$> parsed = Some ns /\ apiPort <$> parsed = Some (defaultAPIPort env))
       /\ (let parsed := flag.Parse (init env) ["-api-port"; port] in
           apiPort <$> parsed = Some port /\ namespace <$> parsed = Some (defaultNamespace env))
       /\ (let parsed := flag.Parse (init env) ["-namespace"; ns; "-api-port"; port] in
           namespace <$> parsed = Some ns /\ apiPort <$> parsed = Some port)
       /\ (let parsed := flag.Parse (init env) ["-namespace=" ++ ns; "--api-port=" ++ port] in
           namespace <$> parsed = Some ns /\ apiPort <$> parsed = Some port).
Proof.
  split; [| split].
  - unfold defaultNamespace, os.LookupEnv. now destruct (env !! "BRIGADE_NAMESPACE").
  - unfold defaultAPIPort, os.LookupEnv. now destruct (env !! "BRIGADE_API_PORT").
  - unfold init. generalize (defaultNamespace env) (defaultAPIPort env). intros dns dport.
    split; [vm_compute; reflexivity |]. split; [vm_compute; reflexivity |].
    split; [reflexivity |].
    intros ns port. cbv zeta.
    repeat split; vm_compute; reflexivity.
Qed.

(* ===================================================================== *)
(** * The aggregation and the by-id handlers *)
(* ===================================================================== *)

Import Model.

(** C1.  When the project listing succeeds, [Summarize] returns one
    summary per listed project, in the order of the listing; a project
    whose builds are listed is paired with the build that is maximal by
    creation timestamp and then identifier, any other maximal build
    having the same timestamp and identifier, and a project with no
    build is paired with the no-build marker. *)
Theorem summarize_pairs_latest_build (r : Reader) (projects : list Project) :
  ListProjects r = Ok projects ->
  exists summaries,
    Summarize r = Ok summaries
    /\ map SummaryProject summaries = projects
    /\ forall s, In s summaries ->
       forall builds, ListBuilds r (ProjectID (SummaryProject s)) = Ok builds ->
         match builds with
         | [] => SummaryBuild s = NoBuild
         | _ :: _ =>
             exists b, SummaryBuild s = Latest b
                       /\ In b builds
                       /\ (forall b', In b' builds -> key_le b' b)
                       /\ (forall b', In b' builds -> key_le b b' ->
                             Created b' = Created b /\ BuildID b' = BuildID b)
         end.
Proof.
  intros HP. unfold Summarize. rewrite HP. eexists. split; [reflexivity |]. split.
  - rewrite map_map. rewrite <- (map_id projects) at 2. apply map_ext.
    intros p. unfold summarizeProject.
    destruct (ListBuilds r (ProjectID p)); [destruct (latest a) |]; reflexivity.
  - intros s Hs builds HB. apply in_map_iff in Hs as (p & <- & _).
    unfold summarizeProject in *.
    destruct (ListBuilds r (ProjectID p)) as [bs | e] eqn:E.
    + assert (HB' : ListBuilds r (ProjectID p) = Ok builds).
      { destruct (latest bs); exact HB. }
      rewrite E in HB'. injection HB' as ->.
      pose proof (latest_spec builds) as L. destruct builds as [|x builds].
      * rewrite L. reflexivity.
      * destruct L as (b & -> & Hin & Hall). exists b.
        split; [reflexivity |]. split; [assumption |]. split; [assumption |].
        intros b' Hb' Hle. apply key_le_antisym; auto.
    + cbn in HB. rewrite E in HB. discriminate.
Qed.

Lemma summarize_pairs_latest_build_witness :
  ListProjects (storeReader Demo.store) = Ok [Demo.p1; Demo.p2; Demo.p3]
  /\ exists summaries,
       Summarize (storeReader Demo.store) = Ok summaries
       /\ map SummaryProject summaries = [Demo.p1; Demo.p2; Demo.p3].
Proof.
  split; [reflexivity |].
  destruct (summarize_pairs_latest_build (storeReader Demo.store) [Demo.p1; Demo.p2; Demo.p3]
              eq_refl) as (summaries & H1 & H2 & _).
  exists summaries. split; assumption.
Defined.

(** C2.  [Summarize] fails exactly when the project listing fails.
    When the listing succeeds there is an entry for every project and
    the request answers 200; the entry of a project whose build listing
    failed carries the lookup-failed indicator, which is not the
    no-build marker, and the entry of a project whose build listing
    succeeded carries its latest build. *)
Theorem summarize_fails_only_with_project_listing (backendStatus : Z) (r : Reader) :
  (forall e, Summarize r = Err e <-> ListProjects r = Err e)
  /\ (forall projects,
        ListProjects r = Ok projects ->
        exists summaries,
          Summarize r = Ok summaries
          /\ map SummaryProject summaries = projects
          /\ Status (ListWithLatestBuild backendStatus r) = 200
          /\ Entity (ListWithLatestBuild backendStatus r) = Some summaries
          /\ forall s, In s summaries ->
               (forall e, ListBuilds r (ProjectID (SummaryProject s)) = Err e ->
                          SummaryBuild s = BuildLookupFailed e)
               /\ (forall builds, ListBuilds r (ProjectID (SummaryProject s)) = Ok builds ->
                     SummaryBuild s = match latest builds with
                                      | Some b => Latest b
                                      | None => NoBuild
                                      end))
  /\ (forall e, BuildLookupFailed e <> NoBuild).
Proof.
  split; [| split].
  - intros e. unfold Summarize. destruct (ListProjects r); split; congruence.
  - intros projects HP. unfold ListWithLatestBuild, Summarize. rewrite HP.
    eexists. split; [reflexivity |]. split; [| split; [reflexivity | split; [reflexivity |]]].
    + rewrite map_map. rewrite <- (map_id projects) at 2. apply map_ext.
      intros p. unfold summarizeProject.
      destruct (ListBuilds r (ProjectID p)); [destruct (latest a) |]; reflexivity.
    + intros s Hs. apply in_map_iff in Hs as (p & <- & _).
      assert (Hp : ProjectID (SummaryProject (summarizeProject r p)) = ProjectID p).
      { unfold summarizeProject.
        destruct (ListBuilds r (ProjectID p)); [destruct (latest a) |]; reflexivity. }
      rewrite Hp. unfold summarizeProject. split.
      * intros e HB. rewrite HB. reflexivity.
      * intros builds HB. rewrite HB. now destruct (latest builds).
  - discriminate.
Qed.

Lemma summarize_fails_only_with_project_listing_witness :
  Summarize (storeReader Demo.storeBrokenP1)
  = Ok [ mkSummary Demo.p1 (BuildLookupFailed "build listing failed");
         mkSummary Demo.p2 NoBuild;
         mkSummary Demo.p3 (Latest Demo.b4) ]
  /\ Status (ListWithLatestBuild 503 (storeReader Demo.storeBrokenP1)) = 200.
Proof.
  destruct (summarize_fails_only_with_project_listing 503 (storeReader Demo.storeBrokenP1))
    as (_ & H & _).
  destruct (H [Demo.p1; Demo.p2; Demo.p3] eq_refl) as (summaries & H1 & _ & H3 & _).
  split; [reflexivity | exact H3].
Defined.



(* ===================================================================== *)
(** * Scenarios *)
(* ===================================================================== *)

Example Itoa_width_pads :
  Itoa_width 4 7 = "0007" /\ Itoa_width 2 (-7) = "-07" /\ Itoa_width 2 123 = "123"
  /\ Itoa 0 = "0" /\ Itoa (-404) = "-404".
Proof. repeat split. Qed.

Example Format_early_year :
  time.Format (time.mkTime 33 time.April 3 15 0 0 7200) logLayout
  = "03/Apr/0033:15:00:00 +0200".
Proof. reflexivity. Qed.

(** The scenarios of the specification, on the sample data. *)
Example scenario_latest_build :
  Model.Summarize (Model.storeReader Demo.store)
  = Model.Ok [ Model.mkSummary Demo.p1 (Model.Latest Demo.b2);
               Model.mkSummary Demo.p2 Model.NoBuild;
               Model.mkSummary Demo.p3 (Model.Latest Demo.b4) ].
Proof. reflexivity. Qed.

Example scenario_unknown_job :
  let w := dispatch Demo.container Demo.getUnknownJob Demo.world0 in
  StatusCode (response w) = 404
  /\ ContentLength (response w) = 0
  /\ reached w = [JobGet]
  /\ accessLog w
     = [ "10.0.0.7 - - [31/Oct/2026:05:03:09 -0700] " ++ dquote
         ++ "GET /v1/job/unknown HTTP/1.1" ++ dquote ++ " 404 0" ].
Proof. vm_compute. repeat split. Qed.

Example scenario_preflight_logged :
  let w := dispatch Demo.container Demo.preflight Demo.world0 in
  reached w = []
  /\ accessLog w
     = [ "[ - - [31/Oct/2026:05:03:09 -0700] " ++ dquote
         ++ "OPTIONS /v1/projects HTTP/1.1" ++ dquote ++ " 200 0" ].
Proof. vm_compute. repeat split. Qed.

Example scenario_flags :
  Main.namespace <$> flag.Parse (Main.init {[ "BRIGADE_NAMESPACE" := "ci" ]}) ["-api-port"; "8080"]
  = Some "ci".
Proof. vm_compute. reflexivity. Qed.

(* ===================================================================== *)
(** * Routes and their parameters *)
(* ===================================================================== *)

Import More.

Section Disjoint.
Lemma matches_overlap (p q ts : list string) :
  matchesTokens p ts = true -> matchesTokens q ts = true -> overlap p q = true.
Proof.
  revert q ts. induction p as [|a p IH]; intros [|b q] [|t ts]; cbn; try discriminate; auto.
  intros Hp Hq. apply andb_true_iff in Hp as [Ha Hp]. apply andb_true_iff in Hq as [Hb Hq].
  rewrite (IH q ts Hp Hq), andb_true_r.
  destruct (String.prefix "{" a); [reflexivity |].
  destruct (String.prefix "{" b); [reflexivity |]. cbn in *.
  apply String.eqb_eq in Ha, Hb. subst. apply String.eqb_refl.
Qed.

Lemma disjoint_none_matches (p : list string) (rest : list (list string)) (ts : list string) :
  forallb (fun q => negb (overlap p q)) rest = true ->
  matchesTokens p ts = true ->
  List.filter (fun q => matchesTokens q ts) rest = [].
Proof.
  intros H Hp. induction rest as [|q rest IH]; [reflexivity |].
  cbn in H. apply andb_true_iff in H as [Hq H]. cbn.
  destruct (matchesTokens q ts) eqn:E.
  - rewrite (matches_overlap p q ts Hp E) in Hq. discriminate.
  - auto.
Qed.

Lemma disjoint_at_most_one (ps : list (list string)) (ts : list string) :
  pairwise_disjoint ps = true ->
  (length (List.filter (fun q => matchesTokens q ts) ps) <= 1)%nat.
Proof.
  induction ps as [|p ps IH]; cbn; [lia |].
  intros H. apply andb_true_iff in H as [Hp H].
  destruct (matchesTokens p ts) eqn:E; [| auto].
  cbn. rewrite (disjoint_none_matches p ps ts Hp E). cbn. lia.
Qed.

Lemma filter_map_length {A B : Type} (f : A -> B) (P : B -> bool) (l : list A) :
  length (List.filter (fun a => P (f a)) l) = length (List.filter P (map f l)).
Proof.
  induction l as [|a l IH]; cbn; [reflexivity |]. destruct (P (f a)); cbn; now rewrite IH.
Qed.
End Disjoint.

(** X1. At most one route of the container that [main] wires matches a
    request path: the patterns of its routes are pairwise disjoint, so
    the order in which the web services were added never decides which
    route answers. *)
Theorem route_patterns_disjoint
    (api_Healthz : RouteFunction) (getSwagger : restfulspec.Config -> RouteFunction)
    (server : api.API) (requestTokens : list string) :
  let c := main_container api_Healthz getSwagger server in
  (length (List.filter
             (fun wr : WebService * Route =>
                matchesTokens (tokenizePath (Path (snd wr))) requestTokens)
             (allRoutes (webServices c))) <= 1)%nat.
Proof.
  intros c.
  rewrite (filter_map_length (fun wr : WebService * Route => tokenizePath (Path (snd wr)))
             (fun q => matchesTokens q requestTokens)).
  apply disjoint_at_most_one.
  subst c. vm_compute. reflexivity.
Qed.

Section Params.
Variable api_Healthz : RouteFunction.
Variable getSwagger : restfulspec.Config -> RouteFunction.
Variable server : api.API.
Local Abbreviation c := (main_container api_Healthz getSwagger server).

(** The path parameter [name] of the request a handler receives, from
    the tokens of the request path. *)
Lemma parameter_by_tokens (m path : string) (u : option http.Userinfo) (uri proto : string)
    (hdr : http.Header) (remote : string) (tokens : list string) (name value : string) :
  tokenizePath path = tokens ->
  (let byPath :=
     List.filter (fun wr => matchesTokens (tokenizePath (Path (snd wr))) tokens)
       (allRoutes (webServices c)) in
   match List.filter (fun wr => String.eqb (Method (snd wr)) m) byPath with
   | wr :: _ =>
       PathParameter_of
         (mkRequest (http.mkRequest m (http.mkURL path u uri) proto hdr remote)
            (extractParameters (tokenizePath (Path (snd wr))) tokens)) name
   | [] => ""
   end) = value ->
  value <> "" ->
  PathParameter_of
    (wrapped c (http.mkRequest m (http.mkURL path u uri) proto hdr remote)) name = value.
Proof.
  intros <- H Hne. unfold wrapped, SelectRoute. cbn [http.Path http.URLOf http.Method].
  cbv zeta in H.
  destruct (List.filter _ (allRoutes _)) as [|wr0 l0]; [cbn in H; congruence |].
  destruct (List.filter _ (wr0 :: l0)) as [|[ws route] l1]; [congruence |].
  exact H.
Qed.
End Params.

Ltac param_tokens lem :=
  eapply parameter_by_tokens;
  [ apply lem; (reflexivity || discriminate || assumption || (split; [discriminate | reflexivity]))
  | vm_compute; reflexivity
  | assumption ].

(** X2. For each of the seven routes declared with an [{id}] variable,
    the request that reaches the handler carries, as path parameter [id],
    exactly the path segment written in its place; on the routes without
    a variable the parameter reads as the empty string. *)
Theorem path_parameter_reaches_handler
    (api_Healthz : RouteFunction) (getSwagger : restfulspec.Config -> RouteFunction)
    (server : api.API) (id : string)
    (u : option http.Userinfo) (uri proto : string) (hdr : http.Header) (remote : string) :
  segment id ->
  let c := main_container api_Healthz getSwagger server in
  let received path :=
    PathParameter_of
      (wrapped c (http.mkRequest "GET" (http.mkURL path u uri) proto hdr remote)) "id" in
  received ("/v1/job/" ++ id) = id
  /\ received ("/v1/job/" ++ id ++ "/logs") = id
  /\ received ("/v1/build/" ++ id) = id
  /\ received ("/v1/build/" ++ id ++ "/jobs") = id
  /\ received ("/v1/build/" ++ id ++ "/logs") = id
  /\ received ("/v1/project/" ++ id) = id
  /\ received ("/v1/project/" ++ id ++ "/builds") = id
  /\ received "/v1/projects" = ""
  /\ received "/healthz/" = "".
Proof.
  intros Hid c received. subst c received.
  assert (Hne : id <> "") by apply Hid.
  repeat match goal with |- _ /\ _ => split end.
  - param_tokens (tokenizePath_3 "v1" "job" id).
  - param_tokens (tokenizePath_4 "v1" "job" id "logs").
  - param_tokens (tokenizePath_3 "v1" "build" id).
  - param_tokens (tokenizePath_4 "v1" "build" id "jobs").
  - param_tokens (tokenizePath_4 "v1" "build" id "logs").
  - param_tokens (tokenizePath_3 "v1" "project" id).
  - param_tokens (tokenizePath_4 "v1" "project" id "builds").
  - vm_compute. reflexivity.
  - vm_compute. reflexivity.
Qed.

Lemma path_parameter_reaches_handler_witness :
  segment "j1"
  /\ PathParameter_of (wrapped Demo.container (Demo.get "/v1/job/j1" "10.0.0.7:4312")) "id" = "j1".
Proof.
  assert (H : segment "j1") by (split; [discriminate | reflexivity]).
  split; [exact H |].
  exact (proj1 (path_parameter_reaches_handler Demo.Healthz Demo.getSwagger Demo.server "j1"
                  None "/v1/job/j1" "HTTP/1.1" ∅ "10.0.0.7:4312" H)).
Defined.

(** X3. The four web services of [main.go] declare ten routes, and
    each of them is a GET whose documented parameters are exactly the
    variables of its path, all of data type string, with the responses
    200 and 404, a description and one list of tags. *)
Theorem declared_routes_well_documented (api_Healthz : RouteFunction) (server : api.API) :
  Forall (fun wr : WebService * Route => wellDocumented (snd wr))
    (allRoutes (declaredServices api_Healthz server))
  /\ length (allRoutes (declaredServices api_Healthz server)) = 10%nat.
Proof.
  split; [| reflexivity].
  set (l := allRoutes _). vm_compute in l. subst l.
  repeat (apply List.Forall_cons;
          [unfold wellDocumented; cbn;
           repeat split; (reflexivity || discriminate || (repeat constructor)) |]).
  apply List.Forall_nil.
Qed.

(* ===================================================================== *)
(** * Dispatch through the filters *)
(* ===================================================================== *)

Section Dispatch.
Variable api_Healthz : RouteFunction.
Variable getSwagger : restfulspec.Config -> RouteFunction.
Variable server : api.API.
Local Abbreviation c := (main_container api_Healthz getSwagger server).

Lemma selected_Some (r : http.Request) (h : Handler) :
  selected c r = Some h ->
  exists ws route, SelectRoute (webServices c) r = inl (ws, route)
                   /\ Function route = h /\ http.Method r = "GET".
Proof.
  unfold selected. destruct (SelectRoute (webServices c) r) as [[ws route]|err] eqn:E;
    [| discriminate].
  intros [= <-]. exists ws, route. split; [reflexivity |]. split; [reflexivity |].
  destruct (String.eqb_spec (http.Method r) "GET") as [|Hm]; [assumption |].
  destruct (not_GET_selects_no_route api_Healthz getSwagger server r Hm) as [err E'].
  rewrite E' in E. discriminate.
Qed.

(** The CORS headers leave the status and the body alone. *)
Lemma setOptionsHeaders_status (k : CrossOriginResourceSharing) (req : Request) (resp : Response) :
  statusCode (setOptionsHeaders k req resp) = statusCode resp
  /\ contentLength (setOptionsHeaders k req resp) = contentLength resp.
Proof.
  unfold setOptionsHeaders.
  destruct (ExposeHeaders k); destruct (isOriginAllowed k _); destruct (CookiesAllowed k);
    destruct (0 <? MaxAge k); cbn; auto.
Qed.

Lemma GET_not_preflight (r : http.Request) : http.Method r = "GET" -> is_preflight r = false.
Proof. intros H. unfold is_preflight. now rewrite H. Qed.

(** A dispatch adds the line of the request to the access log, with
    the time on the clock and the response as the dispatch leaves it. *)
Lemma dispatch_logs (r : http.Request) (w : World) :
  accessLog (dispatch c r w)
  = (accessLog w ++ [logLine r (clock w) (response (dispatch c r w))])%list.
Proof.
  rewrite !dispatch_main, !logger_after_chain, !cors_Filter_cases, !wrapped_RequestOf.
  generalize (wrapped c r); intros req; unfold target.
  destruct (SelectRoute (webServices c) r) as [[ws route]|err];
    destruct (is_preflight r);
    destruct (String.eqb (http.Header_Get (http.HeaderOf r) HEADER_Origin) "");
    cbn; auto.
Qed.
End Dispatch.

(** X4. A request for which the router selects a handler is a GET; the
    dispatch through the logger and the CORS filter reaches that handler
    and no other, and the handler runs on the response as the CORS filter
    left it: untouched without an [Origin] header, with the headers of an
    actual cross-origin request otherwise. *)
Theorem routed_request_reaches_its_handler
    (api_Healthz : RouteFunction) (getSwagger : restfulspec.Config -> RouteFunction)
    (server : api.API) (r : http.Request) (w : World) (h : Handler) :
  let c := main_container api_Healthz getSwagger server in
  selected c r = Some h ->
  let w' := dispatch c r w in
  let req := wrapped c r in
  http.Method r = "GET"
  /\ reached w' = (reached w ++ [op h])%list
  /\ response w'
     = run h req
         (if String.eqb (http.Header_Get (http.HeaderOf r) HEADER_Origin) ""
          then response w
          else doActualRequest cors req (response w)).
Proof.
  intros c Hsel w' req. subst w' req.
  destruct (selected_Some api_Healthz getSwagger server r h Hsel) as (ws & route & E & <- & Hm).
  split; [assumption |]. unfold c.
  rewrite dispatch_main, logger_after_chain, cors_Filter_cases, wrapped_RequestOf,
    (GET_not_preflight r Hm).
  generalize (wrapped (main_container api_Healthz getSwagger server) r). intros req.
  unfold target. rewrite E.
  destruct (String.eqb _ ""); cbn; auto.
Qed.

Lemma routed_request_reaches_its_handler_witness :
  selected Demo.container Demo.getUnknownJob = Some (api.Job_Get (api.Job Demo.server))
  /\ reached (dispatch Demo.container Demo.getUnknownJob Demo.world0) = [JobGet].
Proof.
  assert (H : selected Demo.container Demo.getUnknownJob
              = Some (api.Job_Get (api.Job Demo.server))) by reflexivity.
  split; [exact H |].
  exact (proj1 (proj2 (routed_request_reaches_its_handler Demo.Healthz Demo.getSwagger
                         Demo.server Demo.getUnknownJob Demo.world0 _ H))).
Defined.

Lemma SelectRoute_error (wss : list WebService) (r : http.Request) (err : ServiceError) :
  SelectRoute wss r = inr err ->
  (Code err = 404 \/ Code err = 405)
  /\ (Code err = 404 <->
      List.filter
        (fun wr : WebService * Route =>
           matchesTokens (tokenizePath (Path (snd wr)))
             (tokenizePath (http.Path (http.URLOf r))))
        (allRoutes wss) = []).
Proof.
  unfold SelectRoute. cbv zeta.
  destruct (List.filter _ (allRoutes wss)) as [|wr0 l0].
  - intros [= <-]. cbn. split; [left; reflexivity | split; reflexivity].
  - destruct (List.filter _ (wr0 :: l0)); [| discriminate].
    intros [= <-]. cbn. split; [right; reflexivity | split; discriminate].
Qed.

(** The filters of [main] around the writing of a routing error. *)
Lemma filters_around_error (req : Request) (w : World) (code : Z) (message : string) :
  is_preflight (RequestOf req) = false ->
  let w' :=
    nCSACommonLogFormatLogger req w
      (fun r1 w1 =>
         CORS_Filter cors r1 w1
           (fun _ w0 => with_response (WriteErrorString code message) w0)) in
  reached w' = reached w
  /\ statusCode (response w') = code
  /\ contentLength (response w')
     = contentLength (response w) + Z.of_nat (String.length message).
Proof.
  intros Hp w'. subst w'. rewrite logger_after_chain, cors_Filter_cases, Hp.
  destruct (setOptionsHeaders_status cors req (response w)) as [_ Hlen].
  destruct (String.eqb (http.Header_Get (http.HeaderOf (RequestOf req)) HEADER_Origin) "").
  - cbv zeta. cbv beta. unfold with_response, WriteErrorString, Write, WriteHeader.
    cbn [reached response statusCode contentLength]. auto.
  - cbv zeta. cbv beta.
    unfold with_response, WriteErrorString, Write, WriteHeader, doActualRequest.
    cbn [reached response statusCode contentLength]. rewrite Hlen. auto.
Qed.

(** An unrouted request in any container whose filters are those of
    [main]. *)
Lemma unrouted_in (c0 : Container) (r : http.Request) (w : World) :
  (forall w0, dispatch c0 r w0
              = nCSACommonLogFormatLogger (wrapped c0 r) w0
                  (fun r1 w1 => CORS_Filter cors r1 w1 (target c0 r))) ->
  RequestOf (wrapped c0 r) = r ->
  selected c0 r = None ->
  is_preflight r = false ->
  exists err,
    SelectRoute (webServices c0) r = inr err
    /\ (Code err = 404 \/ Code err = 405)
    /\ (Code err = 404 <->
        List.filter
          (fun wr : WebService * Route =>
             matchesTokens (tokenizePath (Path (snd wr)))
               (tokenizePath (http.Path (http.URLOf r))))
          (allRoutes (webServices c0)) = [])
    /\ reached (dispatch c0 r w) = reached w
    /\ statusCode (response (dispatch c0 r w)) = Code err
    /\ contentLength (response (dispatch c0 r w))
       = contentLength (response w) + Z.of_nat (String.length (Message err)).
Proof.
  intros Hd Hw Hsel Hp. rewrite Hd. unfold selected in Hsel. unfold target.
  destruct (SelectRoute (webServices c0) r) as [[ws route]|err] eqn:E; [discriminate |].
  exists err. split; [reflexivity |].
  destruct (SelectRoute_error (webServices c0) r err E) as [H1 H2].
  split; [exact H1 |]. split; [exact H2 |].
  apply filters_around_error. now rewrite Hw.
Qed.

(** No route matching by path and method leaves the router without a
    selection. *)
Lemma unmatched_not_selected (c0 : Container) (r : http.Request) :
  matchingRoutes c0 r = [] -> selected c0 r = None.
Proof.
  unfold matchingRoutes, selected, SelectRoute. cbv zeta.
  destruct (List.filter _ (allRoutes (webServices c0))) as [|wr0 l0]; [reflexivity |].
  intros H. now rewrite H.
Qed.

(** X5. A request that no route matches by path and method together,
    and that is no preflight, is answered by the router before any
    content negotiation: no handler is reached, the status is 404 when
    no route path matches and 405 when a path matches under another
    method only, and the content length grows by the length of the
    error message. *)
Theorem unmatched_request_answered_by_router
    (api_Healthz : RouteFunction) (getSwagger : restfulspec.Config -> RouteFunction)
    (server : api.API) (r : http.Request) (w : World) :
  let c := main_container api_Healthz getSwagger server in
  matchingRoutes c r = [] ->
  is_preflight r = false ->
  let w' := dispatch c r w in
  exists err,
    SelectRoute (webServices c) r = inr err
    /\ (Code err = 404 \/ Code err = 405)
    /\ (Code err = 404 <->
        List.filter
          (fun wr : WebService * Route =>
             matchesTokens (tokenizePath (Path (snd wr)))
               (tokenizePath (http.Path (http.URLOf r))))
          (allRoutes (webServices c)) = [])
    /\ reached w' = reached w
    /\ statusCode (response w') = Code err
    /\ contentLength (response w')
       = contentLength (response w) + Z.of_nat (String.length (Message err)).
Proof.
  intros c Hm Hp w'.
  exact (unrouted_in c r w (dispatch_main api_Healthz getSwagger server r)
           (wrapped_RequestOf api_Healthz getSwagger server r)
           (unmatched_not_selected c r Hm) Hp).
Qed.

Lemma unmatched_request_answered_by_router_witness :
  let post := http.mkRequest "POST" (http.mkURL "/v1/projects" None "/v1/projects")
                "HTTP/1.1" ∅ "10.0.0.7:4312" in
  matchingRoutes Demo.container post = []
  /\ is_preflight post = false
  /\ reached (dispatch Demo.container post Demo.world0) = [].
Proof.
  intros post.
  assert (H1 : matchingRoutes Demo.container post = []) by (vm_compute; reflexivity).
  assert (H2 : is_preflight post = false) by reflexivity.
  split; [exact H1 |]. split; [exact H2 |].
  destruct (unmatched_request_answered_by_router Demo.Healthz Demo.getSwagger Demo.server
              post Demo.world0 H1 H2)
    as (err & _ & _ & _ & H & _).
  exact H.
Defined.

Section Sequence.

Lemma last_cons {A : Type} (a d : A) (l : list A) : List.last (a :: l) d = List.last l a.
Proof.
  revert a d. induction l as [|b l IH]; intros a d; [reflexivity |].
  change (List.last (a :: b :: l) d) with (List.last (b :: l) d).
  now rewrite !(IH b).
Qed.

(** Requests served in sequence by any container whose dispatch adds
    the line of the request. *)
Lemma dispatchAll_log (c0 : Container) :
  (forall r w,
      accessLog (dispatch c0 r w)
      = (accessLog w ++ [logLine r (clock w) (response (dispatch c0 r w))])%list) ->
  forall rs w,
    accessLog (dispatchAll c0 rs w)
    = (accessLog w
       ++ map (fun p : time.Time * http.Request * World =>
                 logLine (snd (fst p)) (fst (fst p)) (response (snd p)))
            (combine rs (worldsAfter c0 rs w)))%list
    /\ length (worldsAfter c0 rs w) = length rs
    /\ List.last (worldsAfter c0 rs w) w = dispatchAll c0 rs w.
Proof.
  intros Hlog rs. induction rs as [|tr rs IH]; intros w.
  - unfold dispatchAll. cbn [fold_left worldsAfter combine map length List.last].
    now rewrite app_nil_r.
  - change (dispatchAll c0 (tr :: rs) w) with (dispatchAll c0 rs (serve c0 tr w)).
    cbn [worldsAfter combine map length fst snd].
    destruct (IH (serve c0 tr w)) as (IH1 & IH2 & IH3).
    rewrite IH1, IH2, last_cons, IH3.
    split; [| split; reflexivity].
    unfold serve at 1. rewrite Hlog.
    change (clock (arrival (fst tr) w)) with (fst tr).
    change (accessLog (arrival (fst tr) w)) with (accessLog w).
    change (dispatch c0 (snd tr) (arrival (fst tr) w)) with (serve c0 tr w).
    now rewrite <- app_assoc.
Qed.
End Sequence.

(** X6. Requests served one after the other, each with the time the
    logger reads for it, leave one access-log line each, in the order
    of serving and after the lines that were there, which stay as they
    are; the line of a request carries its own time and the status and
    length of the response as its own dispatch left it. *)
Theorem dispatch_in_sequence_logs_in_order
    (api_Healthz : RouteFunction) (getSwagger : restfulspec.Config -> RouteFunction)
    (server : api.API) (rs : list (time.Time * http.Request)) (w : World) :
  let c := main_container api_Healthz getSwagger server in
  let after := worldsAfter c rs w in
  let w' := dispatchAll c rs w in
  accessLog w'
  = (accessLog w
     ++ map (fun p : time.Time * http.Request * World =>
               logLine (snd (fst p)) (fst (fst p)) (response (snd p)))
          (combine rs after))%list
  /\ length after = length rs
  /\ List.last after w = w'
  /\ length (accessLog w') = (length (accessLog w) + length rs)%nat.
Proof.
  intros c after w'.
  destruct (dispatchAll_log c (dispatch_logs api_Healthz getSwagger server) rs w)
    as (H1 & H2 & H3).
  split; [exact H1 |]. split; [exact H2 |]. split; [exact H3 |].
  subst w' after. rewrite H1, length_app, length_map, length_combine, H2, Nat.min_id.
  reflexivity.
Qed.

(* ===================================================================== *)
(** * The access log line *)
(* ===================================================================== *)

Section Widths.

Lemma length_append (a b : string) :
  String.length (a ++ b) = (String.length a + String.length b)%nat.
Proof. induction a as [|x a IH]; cbn; [reflexivity | now rewrite IH]. Qed.

(** A check over all of [0 .. n-1] decides a property of the integers
    of that range. *)
Lemma below_forall (P : Z -> bool) (n : Z) :
  forallb (fun k => P (Z.of_nat k)) (seq 0 (Z.to_nat n)) = true ->
  forall z, 0 <= z < n -> P z = true.
Proof.
  intros H z Hz. rewrite forallb_forall in H.
  specialize (H (Z.to_nat z)). rewrite Z2Nat.id in H by lia.
  apply H. apply in_seq. lia.
Qed.

Lemma Itoa_width_2 (z : Z) : 0 <= z < 100 -> String.length (Itoa_width 2 z) = 2%nat.
Proof.
  intros Hz. apply Nat.eqb_eq.
  apply (below_forall (fun z => (String.length (Itoa_width 2 z) =? 2)%nat) 100);
    [vm_compute; reflexivity | lia].
Qed.

Lemma Itoa_width_4 (z : Z) : 0 <= z < 10000 -> String.length (Itoa_width 4 z) = 4%nat.
Proof.
  intros Hz. apply Nat.eqb_eq.
  apply (below_forall (fun z => (String.length (Itoa_width 4 z) =? 4)%nat) 10000);
    [vm_compute; reflexivity | lia].
Qed.

Lemma shortMonthName_length (m : time.Month) : String.length (time.shortMonthName m) = 3%nat.
Proof. now destruct m. Qed.

Lemma numTZ_length (t : time.Time) :
  -86400 < time.ZoneOffset t < 86400 -> String.length (time.numTZ t) = 5%nat.
Proof.
  intros H. unfold time.numTZ.
  set (zone := Z.quot (time.ZoneOffset t) 60).
  assert (Hz : -1440 < zone < 1440).
  { subst zone. destruct (Z.le_gt_cases 0 (time.ZoneOffset t)) as [Hpos | Hneg].
    - rewrite Z.quot_div_nonneg by lia.
      pose proof (Z.div_pos (time.ZoneOffset t) 60).
      pose proof (Z.div_lt_upper_bound (time.ZoneOffset t) 60 1440). lia.
    - replace (time.ZoneOffset t) with (- (- time.ZoneOffset t)) by lia.
      rewrite Z.quot_opp_l by lia. rewrite Z.quot_div_nonneg by lia.
      pose proof (Z.div_pos (- time.ZoneOffset t) 60).
      pose proof (Z.div_lt_upper_bound (- time.ZoneOffset t) 60 1440). lia. }
  assert (Ha : 0 <= Z.abs zone < 1440) by lia.
  assert (Hq : 0 <= Z.quot (Z.abs zone) 60 < 100).
  { rewrite Z.quot_div_nonneg by lia. split; [apply Z.div_pos; lia |].
    apply Z.div_lt_upper_bound; lia. }
  assert (Hr : 0 <= Z.rem (Z.abs zone) 60 < 100).
  { rewrite Z.rem_mod_nonneg by lia. pose proof (Z.mod_pos_bound (Z.abs zone) 60). lia. }
  rewrite !length_append, (Itoa_width_2 _ Hq), (Itoa_width_2 _ Hr).
  now destruct (zone <? 0).
Qed.

End Widths.

Lemma Format_logLayout (t : time.Time) :
  time.Format t logLayout
  = Itoa_width 2 (time.Day t) ++ "/" ++ time.shortMonthName (time.MonthOf t) ++ "/"
    ++ Itoa_width 4 (time.Year t) ++ ":" ++ Itoa_width 2 (time.Hour t) ++ ":"
    ++ Itoa_width 2 (time.Minute t) ++ ":" ++ Itoa_width 2 (time.Second t) ++ " "
    ++ time.numTZ t.
Proof.
  unfold time.Format, logLayout.
  lazy -[Itoa_width time.numTZ time.shortMonthName String.append
                    time.Day time.MonthOf time.Year time.Hour time.Minute time.Second].
  now rewrite append_nil_r.
Qed.

(** X8. For a calendar reading within the ranges of its fields, the
    time stamp of the access log is 26 characters long, with the slashes,
    the colon after the year and the space before the zone at fixed
    positions. *)
Theorem log_timestamp_has_fixed_width (t : time.Time) :
  validTime t ->
  String.length (time.Format t logLayout) = 26%nat
  /\ String.get 2 (time.Format t logLayout) = Some "/"%char
  /\ String.get 6 (time.Format t logLayout) = Some "/"%char
  /\ String.get 11 (time.Format t logLayout) = Some ":"%char
  /\ String.get 20 (time.Format t logLayout) = Some " "%char.
Proof.
  intros (Hy & Hd & Hh & Hm & Hs & Hz).
  assert (L2 : forall z, 0 <= z < 100 ->
                 exists a b, Itoa_width 2 z = String a (String b "")).
  { intros z Hz2. pose proof (Itoa_width_2 z Hz2) as H.
    destruct (Itoa_width 2 z) as [|a [|b [|c s]]]; try discriminate. eauto. }
  assert (L4 : exists a b c d,
                 Itoa_width 4 (time.Year t) = String a (String b (String c (String d "")))).
  { pose proof (Itoa_width_4 (time.Year t) ltac:(lia)) as H.
    destruct (Itoa_width 4 (time.Year t)) as [|a [|b [|c [|d [|e s]]]]]; try discriminate.
    eauto 6. }
  assert (L3 : exists a b c,
                 time.shortMonthName (time.MonthOf t) = String a (String b (String c ""))).
  { destruct (time.MonthOf t); cbn; eauto. }
  pose proof (numTZ_length t Hz) as Ltz.
  rewrite Format_logLayout.
  destruct (L2 (time.Day t) ltac:(lia)) as (d1 & d2 & ->).
  destruct (L2 (time.Hour t) ltac:(lia)) as (h1 & h2 & ->).
  destruct (L2 (time.Minute t) ltac:(lia)) as (m1 & m2 & ->).
  destruct (L2 (time.Second t) ltac:(lia)) as (s1 & s2 & ->).
  destruct L4 as (y1 & y2 & y3 & y4 & ->). destruct L3 as (n1 & n2 & n3 & ->).
  cbn [String.append String.length String.get]. rewrite Ltz. repeat split.
Qed.

Lemma log_timestamp_has_fixed_width_witness :
  validTime Demo.now /\ String.length (time.Format Demo.now logLayout) = 26%nat.
Proof.
  assert (H : validTime Demo.now) by (unfold validTime; cbn; lia).
  split; [exact H |]. exact (proj1 (log_timestamp_has_fixed_width Demo.now H)).
Defined.

(** X9. With the CORS settings of [main], an actual request with an
    [Origin] header gets that origin back as the allowed origin and one
    without is left alone; a preflight asking for a method other than
    GET, POST, PUT and DELETE changes nothing, and one asking for one of
    them, with no request headers, is answered with the four methods. *)
Theorem cors_configuration_effects (req : Request) (resp : Response) :
  let origin := http.Header_Get (http.HeaderOf (RequestOf req)) HEADER_Origin in
  let asked := http.Header_Get (http.HeaderOf (RequestOf req))
                 HEADER_AccessControlRequestMethod in
  let askedHeaders := http.Header_Get (http.HeaderOf (RequestOf req))
                        HEADER_AccessControlRequestHeaders in
  doActualRequest cors req resp
  = (if String.eqb origin "" then resp
     else AddHeader HEADER_AccessControlAllowOrigin origin resp)
  /\ (In asked ["GET"; "POST"; "PUT"; "DELETE"] \/ doPreflightRequest cors req resp = resp)
  /\ (In asked ["GET"; "POST"; "PUT"; "DELETE"] -> askedHeaders = "" ->
      doPreflightRequest cors req resp
      = doActualRequest cors req
          (resp |> AddHeader HEADER_AccessControlAllowMethods "GET,POST,PUT,DELETE"
                |> AddHeader HEADER_AccessControlAllowHeaders "")).
Proof.
  intros origin asked askedHeaders. split; [| split].
  - unfold doActualRequest, setOptionsHeaders, isOriginAllowed. fold origin.
    cbn [cors ExposeHeaders CookiesAllowed MaxAge AllowedDomains].
    destruct origin; reflexivity.
  - unfold doPreflightRequest. fold asked.
    destruct (isValidAccessControlRequestMethod asked (AllowedMethods cors)) eqn:E;
      [left | right; reflexivity].
    unfold isValidAccessControlRequestMethod in E. apply existsb_exists in E as (m & Hm & E).
    apply String.eqb_eq in E. subst. exact Hm.
  - intros Hin Hh. unfold doPreflightRequest. fold asked. fold askedHeaders.
    assert (E : isValidAccessControlRequestMethod asked (AllowedMethods cors) = true).
    { unfold isValidAccessControlRequestMethod. apply existsb_exists. exists asked.
      split; [exact Hin | apply String.eqb_refl]. }
    rewrite E, Hh. reflexivity.
Qed.

Lemma cors_configuration_effects_witness :
  In "GET" ["GET"; "POST"; "PUT"; "DELETE"]
  /\ header (doPreflightRequest cors (NewRequest Demo.preflight) NewResponse)
       !! "Access-Control-Allow-Methods" = Some ["GET,POST,PUT,DELETE"].
Proof.
  assert (H : In "GET" ["GET"; "POST"; "PUT"; "DELETE"]) by (cbn; auto).
  split; [exact H |].
  rewrite (proj2 (proj2 (cors_configuration_effects (NewRequest Demo.preflight) NewResponse))
             H eq_refl).
  reflexivity.
Defined.

(** X7. The user name field of an access-log line is never empty; the
    remote host field is empty exactly when the remote address is empty
    or starts with a colon, and is the whole remote address when that
    holds no colon. *)
Theorem log_fields_never_empty (req : Request) :
  usernameOf req <> ""
  /\ (remoteHostOf req = ""
      <-> http.RemoteAddr (RequestOf req) = ""
          \/ String.prefix ":" (http.RemoteAddr (RequestOf req)) = true)
  /\ (has_byte ":" (http.RemoteAddr (RequestOf req)) = false ->
      remoteHostOf req = http.RemoteAddr (RequestOf req)).
Proof.
  split; [| split].
  - unfold usernameOf. destruct (http.User _) as [u|]; [| discriminate].
    cbv zeta. destruct (String.eqb_spec (http.Username u) ""); cbn; [discriminate | assumption].
  - rewrite remoteHostOf_before_colon.
    destruct (http.RemoteAddr (RequestOf req)) as [|a s]; cbn [before_first String.prefix].
    + split; auto.
    + destruct (ascii_dec ":" a) as [<- | Hne].
      * rewrite Ascii.eqb_refl. split; [right; now destruct s | reflexivity].
      * destruct (Ascii.eqb_spec a ":") as [-> | _]; [contradiction |].
        split; [discriminate | intros [H | H]; discriminate].
  - intros H. rewrite remoteHostOf_before_colon.
    induction (http.RemoteAddr (RequestOf req)) as [|a s IH]; cbn in *; [reflexivity |].
    apply orb_false_iff in H as [Ha Hs]. rewrite Ha, IH by assumption. reflexivity.
Qed.

Lemma log_fields_never_empty_witness :
  has_byte ":" "10.0.0.7" = false
  /\ remoteHostOf (NewRequest (Demo.get "/healthz/" "10.0.0.7")) = "10.0.0.7".
Proof.
  split; [reflexivity |].
  exact (proj2 (proj2 (log_fields_never_empty (NewRequest (Demo.get "/healthz/" "10.0.0.7"))))
           eq_refl).
Defined.

(* ===================================================================== *)
(** * The command line *)
(* ===================================================================== *)

Section Flags.

(** One step of [flag.Parse]. *)
Lemma Parse_cons (f : gmap string string) (s : string) (rest : list string) :
  flag.Parse f (s :: rest)
  = if (String.length s <? 2)%nat then Some f
    else if String.eqb s "--" then Some f
    else match flag.flagName s with
         | None => Some f
         | Some name =>
             if String.eqb name "" || String.prefix "-" name || String.prefix "=" name
             then None
             else let (name, value) := flag.splitNameValue name in
                  match f !! name with
                  | None => None
                  | Some _ =>
                      match value with
                      | Some v => flag.Parse (<[name := v]> f) rest
                      | None =>
                          match rest with
                          | [] => None
                          | v :: rest' => flag.Parse (<[name := v]> f) rest'
                          end
                      end
                  end
         end.
Proof. reflexivity. Qed.

(** The shape of [-name] for the four flags of [init]. *)
Lemma known_flag_shape (name : string) :
  In name flagNames ->
  (String.length (String "-" name) <? 2)%nat = false
  /\ String.eqb (String "-" name) "--" = false
  /\ flag.flagName (String "-" name) = Some name
  /\ String.eqb name "" || String.prefix "-" name || String.prefix "=" name = false
  /\ flag.splitNameValue name = (name, None).
Proof.
  unfold flagNames. intros [<- | [<- | [<- | [<- | []]]]]; vm_compute; repeat split.
Qed.

Lemma Parse_known (f : gmap string string) (name v : string) (rest : list string) :
  In name flagNames -> is_Some (f !! name) ->
  flag.Parse f (String "-" name :: v :: rest) = flag.Parse (<[name := v]> f) rest.
Proof.
  intros Hin [x Hx]. destruct (known_flag_shape name Hin) as (H1 & H2 & H3 & H4 & H5).
  rewrite Parse_cons, H1, H2, H3, H4, H5, Hx. reflexivity.
Qed.

Lemma Parse_known_alone (f : gmap string string) (name : string) :
  In name flagNames -> is_Some (f !! name) ->
  flag.Parse f [String "-" name] = None.
Proof.
  intros Hin [x Hx]. destruct (known_flag_shape name Hin) as (H1 & H2 & H3 & H4 & H5).
  rewrite Parse_cons, H1, H2, H3, H4, H5, Hx. reflexivity.
Qed.

Lemma registered_insert (f : gmap string string) (name v : string) :
  Forall (fun n => is_Some (f !! n)) flagNames ->
  Forall (fun n => is_Some (<[name := v]> f !! n)) flagNames.
Proof.
  intros H. eapply List.Forall_impl; [| exact H]. intros n [x Hx]. cbn beta.
  destruct (decide (name = n)) as [-> | Hne].
  - rewrite lookup_insert_eq. eauto.
  - rewrite lookup_insert_ne by assumption. eauto.
Qed.

Lemma Parse_flagArgs (f : gmap string string) (pairs : list (string * string)) :
  Forall (fun n => is_Some (f !! n)) flagNames ->
  Forall (fun p => In (fst p) flagNames) pairs ->
  flag.Parse f (flagArgs pairs)
  = Some (fold_left (fun f p => <[fst p := snd p]> f) pairs f).
Proof.
  intros Hf Hp. revert f Hf. induction Hp as [|[name v] pairs Hn _ IH]; intros f Hf.
  - reflexivity.
  - cbn [flagArgs flat_map app fold_left fst snd].
    change (flat_map _ pairs) with (flagArgs pairs).
    cbn [fst] in Hn.
    rewrite Parse_known; [| assumption |].
    + apply IH. now apply registered_insert.
    + rewrite List.Forall_forall in Hf. auto.
Qed.

Lemma value_of_fold (f : gmap string string) (pairs : list (string * string)) (name : string) :
  flag.value_of (fold_left (fun f p => <[fst p := snd p]> f) pairs f) name
  = lastValue name pairs (flag.value_of f name).
Proof.
  unfold lastValue. revert f. induction pairs as [|[n v] pairs IH]; intros f; [reflexivity |].
  cbn [fold_left fst snd]. rewrite IH. f_equal. unfold flag.value_of, flag.FlagSet.
  destruct (String.eqb_spec n name) as [-> | Hne].
  - now rewrite lookup_insert_eq.
  - now rewrite lookup_insert_ne.
Qed.

Lemma init_registered (env : os.Env) :
  Forall (fun n => is_Some ((init env : gmap string string) !! n)) flagNames.
Proof.
  unfold init. generalize (defaultNamespace env) (defaultAPIPort env). intros ns port.
  repeat constructor; vm_compute; eauto.
Qed.

Lemma init_values (env : os.Env) :
  kubeconfig (init env) = "" /\ master (init env) = ""
  /\ namespace (init env) = defaultNamespace env
  /\ apiPort (init env) = defaultAPIPort env.
Proof.
  unfold init. generalize (defaultNamespace env) (defaultAPIPort env). intros ns port.
  repeat split; vm_compute; reflexivity.
Qed.

Lemma init_unknown (env : os.Env) (name : string) :
  ~ In name flagNames -> (init env : gmap string string) !! name = None.
Proof.
  unfold flagNames. intros H. unfold init, flag.StringVar, flag.FlagSet.
  rewrite !lookup_insert_ne; [apply lookup_empty | | | |]; intros <-; apply H; cbn; auto.
Qed.

Lemma cutValue_plain (s : string) :
  has_byte "=" s = false -> flag.cutValue s = (s, None).
Proof.
  induction s as [|a s IH]; cbn; [reflexivity |].
  intros H. apply orb_false_iff in H as [Ha Hs]. rewrite Ha, IH by assumption. reflexivity.
Qed.

(** The name of [-name] when [name] does not start with a dash. *)
Lemma flagName_dash (name : string) :
  String.prefix "-" name = false -> flag.flagName (String "-" name) = Some name.
Proof.
  destruct name as [|a name]; [reflexivity |]. cbn.
  destruct a as [[] [] [] [] [] [] [] []]; cbn; intros H; try reflexivity.
  destruct name; discriminate.
Qed.

Lemma flagName_other (s : string) :
  String.prefix "-" s = false -> flag.flagName s = None.
Proof.
  destruct s as [|a s]; [reflexivity |]. cbn.
  destruct a as [[] [] [] [] [] [] [] []]; cbn; intros H; try reflexivity.
  destruct s; discriminate.
Qed.

End Flags.

(** X10. On a command line made of the four flags of [init], each
    followed by a value, parsing succeeds and every variable holds the
    value of the last occurrence of its flag, or its default when the
    flag does not occur. *)
Theorem flags_last_value_wins (env : os.Env) (pairs : list (string * string)) :
  Forall (fun p => In (fst p) flagNames) pairs ->
  exists f,
    flag.Parse (init env) (flagArgs pairs) = Some f
    /\ kubeconfig f = lastValue "kubeconfig" pairs ""
    /\ master f = lastValue "master" pairs ""
    /\ namespace f = lastValue "namespace" pairs (defaultNamespace env)
    /\ apiPort f = lastValue "api-port" pairs (defaultAPIPort env).
Proof.
  intros Hp. eexists. split; [apply Parse_flagArgs; [apply init_registered | exact Hp] |].
  destruct (init_values env) as (H1 & H2 & H3 & H4).
  unfold kubeconfig, master, namespace, apiPort in *.
  rewrite !value_of_fold, H1, H2, H3, H4. auto.
Qed.

Lemma flags_last_value_wins_witness :
  Forall (fun p : string * string => In (fst p) flagNames)
    [("namespace", "a"); ("api-port", "80"); ("namespace", "b")]
  /\ namespace <$> flag.Parse (init ∅) ["-namespace"; "a"; "-api-port"; "80"; "-namespace"; "b"]
     = Some "b".
Proof.
  assert (H : Forall (fun p : string * string => In (fst p) flagNames)
                [("namespace", "a"); ("api-port", "80"); ("namespace", "b")])
    by (repeat constructor; cbn; auto 10).
  split; [exact H |].
  destruct (flags_last_value_wins ∅ _ H) as (f & Hf & _ & _ & Hn & _).
  change (flagArgs [("namespace", "a"); ("api-port", "80"); ("namespace", "b")])
    with ["-namespace"; "a"; "-api-port"; "80"; "-namespace"; "b"] in Hf.
  rewrite Hf. cbn [fmap option_fmap option_map]. now rewrite Hn.
Defined.

(** X11. [flag.Parse] stops, keeping the values read so far, at the
    first argument that does not start with a dash and at [--]; on the
    flags of [init] it fails on a flag that was not defined and on a
    defined flag that comes last without a value. *)
Theorem flag_parsing_stops_and_fails (env : os.Env) :
  (forall f s rest, String.prefix "-" s = false -> flag.Parse f (s :: rest) = Some f)
  /\ (forall f rest, flag.Parse f ("--" :: rest) = Some f)
  /\ (forall name rest,
        ~ In name flagNames ->
        name <> "" -> String.prefix "-" name = false -> has_byte "=" name = false ->
        flag.Parse (init env) (String "-" name :: rest) = None)
  /\ (forall name, In name flagNames -> flag.Parse (init env) [String "-" name] = None).
Proof.
  split; [| split; [| split]].
  - intros f s rest Hs. rewrite Parse_cons, (flagName_other s Hs).
    destruct (String.length s <? 2)%nat; [reflexivity |].
    now destruct (String.eqb s "--").
  - reflexivity.
  - intros name rest Hn Hne Hdash Heq. rewrite Parse_cons, (flagName_dash name Hdash).
    destruct name as [|a name]; [contradiction |].
    cbn [String.length Nat.ltb Nat.leb].
    assert (Hdd : String.eqb (String "-" (String a name)) "--" = false).
    { destruct (String.eqb_spec (String "-" (String a name)) "--") as [E |]; [| reflexivity].
      injection E as -> ->. discriminate Hdash. }
    rewrite Hdd. cbn [String.eqb orb]. rewrite Hdash. cbn [orb].
    assert (Hp : String.prefix "=" (String a name) = false).
    { cbn in Heq. apply orb_false_iff in Heq as [Ha _]. cbn [String.prefix].
      destruct (ascii_dec "=" a) as [<- |]; [discriminate Ha | reflexivity]. }
    rewrite Hp. unfold flag.splitNameValue.
    cbn in Heq. apply orb_false_iff in Heq as [_ Heq].
    rewrite (cutValue_plain name Heq). cbv beta iota.
    rewrite (init_unknown env (String a name) Hn). reflexivity.
  - intros name Hn. apply Parse_known_alone; [exact Hn |].
    pose proof (init_registered env) as H. rewrite List.Forall_forall in H. auto.
Qed.

Lemma flag_parsing_stops_and_fails_witness :
  ~ In "port" flagNames /\ "port" <> "" /\ String.prefix "-" "port" = false
  /\ has_byte "=" "port" = false
  /\ flag.Parse (init ∅) ["-port"; "80"] = None.
Proof.
  assert (H1 : ~ In "port" flagNames).
  { unfold flagNames. intros [H | [H | [H | [H | []]]]]; discriminate H. }
  assert (H2 : "port" <> "") by discriminate.
  split; [exact H1 |]. split; [exact H2 |]. split; [reflexivity |]. split; [reflexivity |].
  destruct (flag_parsing_stops_and_fails ∅) as (_ & _ & H & _).
  exact (H "port" ["80"] H1 H2 eq_refl eq_refl).
Defined.

(** X12. Started on a command line of the four flags with values,
    [main] asks for the Kubernetes client with the last master and
    kubeconfig values; when that fails it exits without a server, and
    otherwise it serves the wired container at a colon followed by the
    last API port, over the storage of the last namespace. *)
Theorem main_serves_with_last_flags {Clientset Storage : Type}
    (api_Healthz : RouteFunction) (getSwagger : restfulspec.Config -> RouteFunction)
    (kube_GetClient : string -> string -> option Clientset)
    (kube_New : Clientset -> string -> Storage)
    (api_New : Storage -> api.API)
    (env : os.Env) (pairs : list (string * string)) :
  Forall (fun p => In (fst p) flagNames) pairs ->
  main api_Healthz getSwagger kube_GetClient kube_New api_New env (flagArgs pairs)
  = match kube_GetClient (lastValue "master" pairs "") (lastValue "kubeconfig" pairs "") with
    | None => None
    | Some clientset =>
        Some (mkServer (":" ++ lastValue "api-port" pairs (defaultAPIPort env))
                (main_container api_Healthz getSwagger
                   (api_New (kube_New clientset
                               (lastValue "namespace" pairs (defaultNamespace env))))))
    end.
Proof.
  intros Hp. unfold main.
  rewrite (Parse_flagArgs (init env) pairs (init_registered env) Hp).
  destruct (init_values env) as (H1 & H2 & H3 & H4).
  unfold kubeconfig, master, namespace, apiPort in *.
  rewrite !value_of_fold, H1, H2, H3, H4.
  destruct (kube_GetClient _ _); [| reflexivity].
  cbn [Sprintf]. generalize (lastValue "api-port" pairs (defaultAPIPort env)). intros p.
  cbn. now rewrite append_nil_r.
Qed.

Lemma main_serves_with_last_flags_witness :
  Forall (fun p : string * string => In (fst p) flagNames)
    [("api-port", "80"); ("namespace", "a"); ("api-port", "8080")]
  /\ Addr <$> main Demo.Healthz Demo.getSwagger
                (fun _ _ : string => Some tt) (fun (_ : unit) (_ : string) => tt)
                (fun _ : unit => Demo.server) ∅
                ["-api-port"; "80"; "-namespace"; "a"; "-api-port"; "8080"]
     = Some ":8080".
Proof.
  assert (H : Forall (fun p : string * string => In (fst p) flagNames)
                [("api-port", "80"); ("namespace", "a"); ("api-port", "8080")])
    by (repeat constructor; cbn; auto 10).
  split; [exact H |].
  pose proof (main_serves_with_last_flags Demo.Healthz Demo.getSwagger
                (fun _ _ : string => Some tt) (fun (_ : unit) (_ : string) => tt)
                (fun _ : unit => Demo.server) ∅ _ H) as Hm.
  change (flagArgs [("api-port", "80"); ("namespace", "a"); ("api-port", "8080")])
    with ["-api-port"; "80"; "-namespace"; "a"; "-api-port"; "8080"] in Hm.
  rewrite Hm. reflexivity.
Defined.

(* ===================================================================== *)
(** * The terminal on Darwin *)
(* ===================================================================== *)

Import tcell.

Section RawMode.

Lemma land_ldiff_mask (x m : Z) : Z.land (Z.ldiff x m) m = 0.
Proof.
  apply Z.bits_inj'. intros n Hn.
  rewrite Z.land_spec, Z.ldiff_spec, Z.bits_0. now destruct (Z.testbit x n), (Z.testbit m n).
Qed.

Lemma ldiff_idem (x m : Z) : Z.ldiff (Z.ldiff x m) m = Z.ldiff x m.
Proof.
  apply Z.bits_inj'. intros n Hn.
  rewrite !Z.ldiff_spec. now destruct (Z.testbit x n), (Z.testbit m n).
Qed.

Lemma ldiff_lor_idem (x m c : Z) :
  Z.lor (Z.ldiff (Z.lor (Z.ldiff x m) c) m) c = Z.lor (Z.ldiff x m) c.
Proof.
  apply Z.bits_inj'. intros n Hn.
  rewrite !Z.lor_spec, !Z.ldiff_spec, !Z.lor_spec, !Z.ldiff_spec.
  now destruct (Z.testbit x n), (Z.testbit m n), (Z.testbit c n).
Qed.

Lemma land_lor_same (x c : Z) : Z.land (Z.lor x c) c = c.
Proof.
  apply Z.bits_inj'. intros n Hn.
  rewrite Z.land_spec, Z.lor_spec. now destruct (Z.testbit x n), (Z.testbit c n).
Qed.

End RawMode.

(** X13. The settings [termioInit] installs have every bit of the
    input, output and local masks cleared and the character size set to
    eight bits; every bit of the input, output, local and control flags
    outside the masks, the control characters and the speeds are those
    of the saved settings, and computing raw mode again changes
    nothing. *)
Theorem raw_mode_clears_and_keeps (k : Consts) (tios : termiosPrivate) :
  let raw := rawMode k tios in
  Z.land (Iflag raw) (iflagMask k) = 0
  /\ Z.land (Oflag raw) (OPOST k) = 0
  /\ Z.land (Lflag raw) (lflagMask k) = 0
  /\ Z.land (Cflag raw) (CS8 k) = CS8 k
  /\ (forall n, Z.testbit (iflagMask k) n = false ->
                Z.testbit (Iflag raw) n = Z.testbit (Iflag tios) n)
  /\ (forall n, Z.testbit (OPOST k) n = false ->
                Z.testbit (Oflag raw) n = Z.testbit (Oflag tios) n)
  /\ (forall n, Z.testbit (lflagMask k) n = false ->
                Z.testbit (Lflag raw) n = Z.testbit (Lflag tios) n)
  /\ (forall n, Z.testbit (Z.lor (CSIZE k) (Z.lor (PARENB k) (CS8 k))) n = false ->
                Z.testbit (Cflag raw) n = Z.testbit (Cflag tios) n)
  /\ Cc raw = Cc tios /\ Ispeed raw = Ispeed tios /\ Ospeed raw = Ospeed tios
  /\ rawMode k raw = raw.
Proof.
  intros raw. subst raw. unfold rawMode, iflagMask, lflagMask. cbn [Iflag Oflag Lflag Cflag Cc Ispeed Ospeed].
  repeat match goal with |- _ /\ _ => split end; try reflexivity.
  - apply land_ldiff_mask.
  - apply land_ldiff_mask.
  - apply land_ldiff_mask.
  - apply land_lor_same.
  - intros n H. rewrite Z.ldiff_spec, H. apply andb_true_r.
  - intros n H. rewrite Z.ldiff_spec, H. apply andb_true_r.
  - intros n H. rewrite Z.ldiff_spec, H. apply andb_true_r.
  - intros n H. rewrite !Z.lor_spec in H. rewrite Z.lor_spec, Z.ldiff_spec, Z.lor_spec.
    apply orb_false_iff in H as [H1 H2]. apply orb_false_iff in H2 as [H2 H3].
    rewrite H1, H2, H3. cbn. now rewrite andb_true_r, orb_false_r.
  - now rewrite !ldiff_idem, ldiff_lor_idem.
Qed.

Lemma raw_mode_clears_and_keeps_witness :
  let tios := mkTermios 11019 3 19200 1483 [] 9600 9600 in
  Z.testbit (iflagMask darwin) 11 = false
  /\ Z.testbit (OPOST darwin) 1 = false
  /\ Z.testbit (Iflag (rawMode darwin tios)) 11 = Z.testbit (Iflag tios) 11
  /\ Z.testbit (Oflag (rawMode darwin tios)) 1 = Z.testbit (Oflag tios) 1.
Proof.
  intros tios. split; [reflexivity |]. split; [reflexivity |].
  destruct (raw_mode_clears_and_keeps darwin tios) as (_ & _ & _ & _ & HI & HO & _).
  split; [exact (HI 11 eq_refl) | exact (HO 1 eq_refl)].
Defined.

Section Fds.
Lemma fresh_not_open (os : OS) :
  wellFormed os -> (nextFd os ∉ openFds os) /\ (S (nextFd os) ∉ openFds os).
Proof.
  intros H. split; intros Hin; apply H in Hin; lia.
Qed.

Lemma open_close (s : gset nat) (n : nat) : n ∉ s -> ({[n]} ∪ s) ∖ {[n]} = s.
Proof.
  intros Hn. apply set_eq. intros x.
  rewrite elem_of_difference, elem_of_union, elem_of_singleton.
  split; [intros [[-> | H] Hx]; [contradiction | exact H] |].
  intros H. split; [now right |]. intros ->. contradiction.
Qed.

Lemma open_open_close (s : gset nat) (n m : nat) :
  n ∉ s -> m ∉ s -> (({[m]} ∪ ({[n]} ∪ s)) ∖ {[n]}) ∖ {[m]} = s.
Proof.
  intros Hn Hm. apply set_eq. intros x.
  rewrite !elem_of_difference, !elem_of_union, !elem_of_singleton.
  split.
  - intros [[[-> | [-> | H]] Hx] Hy]; [contradiction | contradiction | exact H].
  - intros H. split; [split; [right; now right |] |]; intros ->; contradiction.
Qed.

Lemma open_open_close_rev (s : gset nat) (n m : nat) :
  n ∉ s -> m ∉ s -> (({[m]} ∪ ({[n]} ∪ s)) ∖ {[m]}) ∖ {[n]} = s.
Proof.
  intros Hn Hm. apply set_eq. intros x.
  rewrite !elem_of_difference, !elem_of_union, !elem_of_singleton.
  split.
  - intros [[[-> | [-> | H]] Hx] Hy]; [contradiction | contradiction | exact H].
  - intros H. split; [split; [right; now right |] |]; intros ->; contradiction.
Qed.
End Fds.

(** X14. When one of the two opens or of the two ioctls of
    [termioInit] fails on a screen that was never initialised, the error
    of the first failing call is returned, the terminal keeps its
    settings, every descriptor that was opened is closed again, and the
    relay of SIGWINCH and the size of the cell buffer are as before. *)
Theorem termioInit_fails_cleanly
    (k : Consts) (fl : Faults) (os : OS) (t : tScreen) (e : error) :
  firstFault fl = Some e ->
  freshScreen t ->
  wellFormed os ->
  let '(result, os', t') := termioInit k fl os t in
  result = Some e
  /\ ttyTermios os' = ttyTermios os
  /\ openFds os' = openFds os
  /\ sigwinchNotified os' = sigwinchNotified os
  /\ cells t' = cells t.
Proof.
  intros Hf [Hin Hout] Hwf. destruct (fresh_not_open os Hwf) as [Hn1 Hn2].
  destruct fl as [oi oo ga sa ws rs]. unfold firstFault in Hf. cbn in Hf.
  unfold termioInit. cbn [openInFails openOutFails getattrErrno setattrErrno].
  rewrite Hin, Hout.
  destruct oi as [e1|]; cbn.
  { injection Hf as <-. repeat split. }
  destruct oo as [e2|]; cbn.
  { injection Hf as <-. repeat split. now apply open_close. }
  destruct (ga =? 0); cbn in Hf |- *.
  2:{ injection Hf as <-. repeat split. apply open_open_close; auto. }
  destruct (sa =? 0); cbn in Hf |- *; [discriminate |].
  injection Hf as <-. repeat split. apply open_open_close; auto.
Qed.

Lemma termioInit_fails_cleanly_witness :
  let fl := mkFaults None None 0 25 0 0 in
  let os := mkOS (mkTermios 11019 3 19200 1483 [] 9600 9600) [24; 80; 0; 0]
              {[0%nat; 1%nat; 2%nat]} 3 false in
  let t := mktScreen None None None (0, 0) in
  firstFault fl = Some (Errno 25) /\ freshScreen t /\ wellFormed os
  /\ fst (fst (termioInit darwin fl os t)) = Some (Errno 25).
Proof.
  intros fl os t.
  assert (H1 : firstFault fl = Some (Errno 25)) by reflexivity.
  assert (H2 : freshScreen t) by (split; reflexivity).
  assert (H3 : wellFormed os).
  { intros fd Hfd. subst os. cbn in *.
    rewrite !elem_of_union, !elem_of_singleton in Hfd. lia. }
  split; [exact H1 |]. split; [exact H2 |]. split; [exact H3 |].
  pose proof (termioInit_fails_cleanly darwin fl os t (Errno 25) H1 H2 H3) as H.
  destruct (termioInit darwin fl os t) as [[r os'] t']. apply H.
Defined.

Section Init.
Variable k : Consts.

(** The state and the screen a successful [termioInit] leaves. *)
Lemma termioInit_ok (fl : Faults) (os : OS) (t : tScreen) :
  firstFault fl = None ->
  freshScreen t ->
  termioInit k fl os t
  = (None,
     mkOS (rawMode k (ttyTermios os)) (ttyWinsize os)
       ({[S (nextFd os)]} ∪ ({[nextFd os]} ∪ openFds os)) (S (S (nextFd os))) true,
     mktScreen (Some (ttyTermios os)) (Some (nextFd os)) (Some (S (nextFd os)))
       (if (winsizeErrno fl =? 0)
           && negb (nth 1 (ttyWinsize os) 0 =? 0) && negb (nth 0 (ttyWinsize os) 0 =? 0)
        then (nth 1 (ttyWinsize os) 0, nth 0 (ttyWinsize os) 0)
        else cells t)).
Proof.
  intros Hf [Hin Hout].
  destruct fl as [oi oo ga sa ws rs]. unfold firstFault in Hf. cbn in Hf.
  destruct oi; [discriminate |]. destruct oo; [discriminate |].
  destruct (ga =? 0) eqn:Ega; [| discriminate]. destruct (sa =? 0) eqn:Esa; [| discriminate].
  unfold termioInit, getWinSize.
  cbn [openInFails openOutFails getattrErrno setattrErrno winsizeErrno].
  rewrite Ega, Esa. cbn.
  destruct (ws =? 0); cbn; [| reflexivity].
  destruct (negb (nth 1 (ttyWinsize os) 0 =? 0) && negb (nth 0 (ttyWinsize os) 0 =? 0));
    reflexivity.
Qed.

Lemma wellFormed_two_more (os : OS) (tios : termiosPrivate) (dim : list Z) (b : bool) :
  wellFormed os ->
  wellFormed (mkOS tios dim ({[S (nextFd os)]} ∪ ({[nextFd os]} ∪ openFds os))
                (S (S (nextFd os))) b).
Proof.
  intros Hwf fd Hfd. cbn in *. rewrite !elem_of_union, !elem_of_singleton in Hfd.
  destruct Hfd as [-> | [-> | Hfd]]; [lia | lia |]. apply Hwf in Hfd. lia.
Qed.

Lemma wellFormed_std :
  wellFormed (mkOS (mkTermios 11019 3 19200 1483 [] 9600 9600) [24; 80; 0; 0]
                {[0%nat; 1%nat; 2%nat]} 3 false).
Proof.
  intros fd Hfd. cbn in *. rewrite !elem_of_union, !elem_of_singleton in Hfd. lia.
Qed.
End Init.

(** X15. When none of the opens and of the two settings ioctls fails,
    [termioInit] returns no error: the terminal is in raw mode, the
    screen holds the settings from before and two distinct fresh
    descriptors, SIGWINCH is relayed, and the cell buffer takes the
    window size exactly when that is read without error and both its
    sides are non-zero. *)
Theorem termioInit_succeeds
    (k : Consts) (fl : Faults) (os : OS) (t : tScreen) :
  firstFault fl = None ->
  freshScreen t ->
  wellFormed os ->
  let '(result, os', t') := termioInit k fl os t in
  result = None
  /\ ttyTermios os' = rawMode k (ttyTermios os)
  /\ tiosp t' = Some (ttyTermios os)
  /\ in_ t' = Some (nextFd os)
  /\ out t' = Some (S (nextFd os))
  /\ in_ t' <> out t'
  /\ openFds os' = {[S (nextFd os)]} ∪ ({[nextFd os]} ∪ openFds os)
  /\ sigwinchNotified os' = true
  /\ wellFormed os'
  /\ cells t'
     = (if (winsizeErrno fl =? 0)
           && negb (nth 1 (ttyWinsize os) 0 =? 0) && negb (nth 0 (ttyWinsize os) 0 =? 0)
        then (nth 1 (ttyWinsize os) 0, nth 0 (ttyWinsize os) 0)
        else cells t).
Proof.
  intros Hf Hfresh Hwf. rewrite (termioInit_ok k fl os t Hf Hfresh).
  cbn [ttyTermios tiosp in_ out openFds sigwinchNotified cells].
  repeat match goal with |- _ /\ _ => split end; try reflexivity.
  - intros H. injection H. lia.
  - now apply wellFormed_two_more.
Qed.

Lemma termioInit_succeeds_witness :
  let fl := mkFaults None None 0 0 0 0 in
  let os := mkOS (mkTermios 11019 3 19200 1483 [] 9600 9600) [24; 80; 0; 0]
              {[0%nat; 1%nat; 2%nat]} 3 false in
  let t := mktScreen None None None (0, 0) in
  firstFault fl = None /\ freshScreen t /\ wellFormed os
  /\ cells (snd (termioInit darwin fl os t)) = (80, 24).
Proof.
  intros fl os t.
  assert (H1 : firstFault fl = None) by reflexivity.
  assert (H2 : freshScreen t) by (split; reflexivity).
  assert (H3 : wellFormed os) by exact wellFormed_std.
  split; [exact H1 |]. split; [exact H2 |]. split; [exact H3 |].
  pose proof (termioInit_succeeds darwin fl os t H1 H2 H3) as H.
  destruct (termioInit darwin fl os t) as [[r os'] t'].
  cbn [snd]. destruct H as (_ & _ & _ & _ & _ & _ & _ & _ & _ & H). exact H.
Defined.

(** X16. [termioFini] after a successful [termioInit] stops the relay of
    SIGWINCH, restores the saved settings unless the ioctl fails, and
    closes the output descriptor, leaving the input one to its
    goroutine; once that has run, the open descriptors are those from
    before [termioInit]. *)
Theorem termioFini_undoes_termioInit
    (k : Consts) (fl : Faults) (os : OS) (t : tScreen) :
  firstFault fl = None ->
  freshScreen t ->
  wellFormed os ->
  let '(_, os1, t1) := termioInit k fl os t in
  let '(os2, pending) := termioFini fl os1 t1 in
  let os3 := runBackground pending os2 in
  sigwinchNotified os2 = false
  /\ ttyTermios os2
     = (if restoreErrno fl =? 0 then ttyTermios os else rawMode k (ttyTermios os))
  /\ openFds os2 = {[nextFd os]} ∪ openFds os
  /\ pending = [nextFd os]
  /\ openFds os3 = openFds os
  /\ ttyTermios os3 = ttyTermios os2
  /\ ttyWinsize os3 = ttyWinsize os.
Proof.
  intros Hf Hfresh Hwf. rewrite (termioInit_ok k fl os t Hf Hfresh).
  destruct (fresh_not_open os Hwf) as [Hn1 Hn2].
  unfold termioFini, runBackground, setattr, Notify, Close.
  cbn [out in_ tiosp fold_left].
  assert (E1 : ({[S (nextFd os)]} ∪ ({[nextFd os]} ∪ openFds os)) ∖ {[S (nextFd os)]}
               = {[nextFd os]} ∪ openFds os).
  { apply open_close. rewrite elem_of_union, elem_of_singleton. intros [H | H]; [lia | auto]. }
  destruct (restoreErrno fl =? 0);
    cbn [ttyTermios ttyWinsize openFds nextFd sigwinchNotified];
    rewrite E1, (open_close _ _ Hn1); repeat split.
Qed.

Lemma termioFini_undoes_termioInit_witness :
  let fl := mkFaults None None 0 0 4 0 in
  let os := mkOS (mkTermios 11019 3 19200 1483 [] 9600 9600) [24; 80; 0; 0]
              {[0%nat; 1%nat; 2%nat]} 3 false in
  let t := mktScreen None None None (0, 0) in
  firstFault fl = None /\ freshScreen t /\ wellFormed os
  /\ (let '(_, os1, t1) := termioInit darwin fl os t in
      let '(os2, pending) := termioFini fl os1 t1 in
      openFds (runBackground pending os2) = openFds os).
Proof.
  intros fl os t.
  assert (H1 : firstFault fl = None) by reflexivity.
  assert (H2 : freshScreen t) by (split; reflexivity).
  assert (H3 : wellFormed os) by exact wellFormed_std.
  split; [exact H1 |]. split; [exact H2 |]. split; [exact H3 |].
  pose proof (termioFini_undoes_termioInit darwin fl os t H1 H2 H3) as H.
  destruct (termioInit darwin fl os t) as [[r os1] t1].
  destruct (termioFini fl os1 t1) as [os2 pending].
  destruct H as (_ & _ & _ & _ & H & _). exact H.
Defined.
